(** * The Calico IP pool resource of the Terraform provider

    A shallow embedding of the resource file of package [calico]: the
    declared schema, the translation between the provider's resource data
    and the API object, and the five lifecycle operations
    (Exists, Read, Create, Update, Delete).

    Conventions.
    - A Go [error] value is an [option error]: [None] is [nil].
    - A Go [int] is a [Z]; no arithmetic is done on it here.
    - [*schema.ResourceData] is a record with one field per attribute of the
      schema; the schema fixes the dynamic type of what [d.Get] returns, so
      the type assertions [d.Get(k).(T)] of the source always succeed and
      are not represented.
    - The remote API, the mutex of [Meta] and the sequence of calls issued
      live in a [World] that every operation threads through.
    - Calls to the logging helper [debug] have no effect on any of this and
      are left out. *)

From Stdlib Require Import ZArith Ascii String.
From stdpp Require Import base option list strings gmap fin_maps.

Open Scope string_scope.
Open Scope list_scope.

#[local] Set Warnings "-register-all".

(** ** Errors and diagnostics *)

(** The reason carried by an error of the API machinery. *)
Inductive StatusReason :=
| StatusReasonNotFound
| StatusReasonAlreadyExists
| StatusReasonConflict
| StatusReasonUnauthorized
| StatusReasonUnknown.

(** Go's [error]: either a status error of the remote API, or an error made
    from a message ([errors.New], [fmt.Errorf], transport failures). *)
Inductive error :=
| StatusError (reason : StatusReason) (message : string)
| errorString (message : string).

(** [err.Error()] *)
Definition Error (e : error) : string :=
  match e with
  | StatusError _ m => m
  | errorString m => m
  end.

Inductive Severity := SeverityError | SeverityWarning.

Record Diagnostic := mkDiagnostic {
  severity : Severity;
  Summary : string;
  Detail : string
}.

Definition Diagnostics := list Diagnostic.

(** [diag.FromErr]: [nil] for a [nil] error, otherwise a single diagnostic of
    severity Error whose summary is the error's message. *)
Definition FromErr (err : option error) : Diagnostics :=
  match err with
  | None => []
  | Some e => [mkDiagnostic SeverityError (Error e) EmptyString]
  end.

Definition HasError (ds : Diagnostics) : bool :=
  existsb (λ x, match severity x with SeverityError => true | _ => false end) ds.

(** ** The API object *)

Module calicov3.

(** [type IPIPMode string] and [type VXLANMode string], with their three
    constants each. *)
Definition IPIPMode : Type := string.
Definition IPIPModeNever : IPIPMode := "Never".
Definition IPIPModeAlways : IPIPMode := "Always".
Definition IPIPModeCrossSubnet : IPIPMode := "CrossSubnet".

Definition VXLANMode : Type := string.
Definition VXLANModeNever : VXLANMode := "Never".
Definition VXLANModeAlways : VXLANMode := "Always".
Definition VXLANModeCrossSubnet : VXLANMode := "CrossSubnet".

Record IPPoolSpec := mkIPPoolSpec {
  CIDR : string;
  VXLANMode_ : VXLANMode;
  IPIPMode_ : IPIPMode;
  NATOutgoing : bool;
  Disabled : bool;
  DisableBGPExport : bool;
  BlockSize : Z
}.

Record IPPool := mkIPPool {
  Name : string;
  ResourceVersion : string;
  Annotations : gmap string string;
  Spec : IPPoolSpec
}.

(** [calicov3.IPPoolSpec{}] and [calicov3.IPPool{}]: every field zero. *)
Definition zeroIPPoolSpec : IPPoolSpec :=
  mkIPPoolSpec EmptyString EmptyString EmptyString false false false 0.

Definition zeroIPPool : IPPool := mkIPPool EmptyString EmptyString ∅ zeroIPPoolSpec.

End calicov3.

(** ** Mode translation *)

Definition getVXLANMode (mode : string) : calicov3.VXLANMode :=
  if String.eqb mode "Always" then calicov3.VXLANModeAlways
  else if String.eqb mode "CrossSubnet" then calicov3.VXLANModeCrossSubnet
  else calicov3.VXLANModeNever.

Definition getIPIPMode (mode : string) : calicov3.IPIPMode :=
  if String.eqb mode "Always" then calicov3.IPIPModeAlways
  else if String.eqb mode "CrossSubnet" then calicov3.IPIPModeCrossSubnet
  else calicov3.IPIPModeNever.

(** ** Values of type [interface{}] and the schema language

    What the plugin SDK hands to a validation function, or finds in a raw
    configuration: a string, an integer, a boolean, a map, or a value that is
    not known yet at validation time. *)
Inductive value :=
| VString (s : string)
| VInt (n : Z)
| VBool (b : bool)
| VMap (m : list (string * value))
| VUnknown.

(** A Go map [map[string]interface{}] is the list of its entries in the order
    in which [range] visits them, which Go leaves unspecified. *)
Definition rawMap : Type := list (string * value).

Inductive ValueType := TypeBool | TypeInt | TypeString | TypeList | TypeMap.

(** [schema.SchemaValidateFunc]: warnings and errors; [None] stands for a
    panic of the function. *)
Definition SchemaValidateFunc : Type :=
  value → string → option (list string * list error).

(** What [Elem] of a schema points to: nothing, the schema of the elements
    ([&schema.Schema{...}]) or a nested resource ([&schema.Resource{...}]). *)
Inductive SchemaElem (S : Type) :=
| ElemNone
| ElemSchema (s : S)
| ElemResource (fields : list (string * S)).

Arguments ElemNone {S}.
Arguments ElemSchema {S} s.
Arguments ElemResource {S} fields.

(** [schema.Schema], with the fields the resource sets ([Description] texts
    are left out). [MaxItems = 0] means no bound. *)
Inductive Schema := mkSchema {
  Type_ : ValueType;
  Optional : bool;
  Required : bool;
  ForceNew : bool;
  Computed : bool;
  Default : option value;
  MaxItems : Z;
  ValidateFunc : option SchemaValidateFunc;
  ConflictsWith : list string;
  Elem : SchemaElem Schema
}.

(** A schema with every field at Go's zero value. *)
Definition zeroSchema (t : ValueType) : Schema :=
  mkSchema t false false false false None 0 None [] ElemNone.

(** ** The configuration as the SDK's validation sees it

    [c.Get(k)] of a [terraform.ResourceConfig]: the value the user wrote at
    attribute path [k] (such as [spec.0.cidr]), absent when the attribute
    is not written in the configuration. Defaults are not part of it. *)
Abbreviation ResourceConfig := (gmap string value) (only parsing).

Definition errorDiagnostic (summary detail : string) : Diagnostic :=
  mkDiagnostic SeverityError summary detail.

Definition warningDiagnostic (summary : string) : Diagnostic :=
  mkDiagnostic SeverityWarning summary EmptyString.

(** Functions of Go's standard library and of the API machinery's
    validation package that the resource and the SDK call: [strings.ToLower],
    [strings.EqualFold], [strconv.Quote] (the verb [%q]) and
    [validation.IsQualifiedName], which returns the list of syntax
    violations of its argument (empty for a qualified name). The development
    holds for any such functions. *)
Class Library := {
  strings_ToLower : string → string;
  strings_EqualFold : string → string → bool;
  strconv_Quote : string → string;
  IsQualifiedName : string → list string
}.

Section Schema.

Context {lib : Library}.

(** [fmt.Errorf("%s (%q) %s", key, k, e)] *)
Definition annotationError (key k e : string) : error :=
  errorString (key +:+ " (" +:+ strconv_Quote k +:+ ") " +:+ e).

(** [for _, e := range errors { es = append(es, ...) }] *)
Fixpoint appendAnnotationErrors
    (key k : string) (errors : list string) (es : list error) : list error :=
  match errors with
  | [] => es
  | e :: errors' =>
      appendAnnotationErrors key k errors' (app es [annotationError key k e])
  end.

(** [for k := range m { ... }], over the entries as [range] visits them. *)
Fixpoint rangeAnnotations
    (key : string) (m : rawMap) (es : list error) : list error :=
  match m with
  | [] => es
  | (k, _) :: m' =>
      let errors := IsQualifiedName (strings_ToLower k) in
      let es :=
        if bool_decide (0 < length errors)
        then appendAnnotationErrors key k errors es
        else es in
      rangeAnnotations key m' es
  end.

(** [validateAnnotations]: the type assertion on [value] panics on anything
    but a map; [ws] is never assigned and stays [nil]. *)
Definition validateAnnotations : SchemaValidateFunc :=
  λ value key,
    match value with
    | VMap m => Some ([], rangeAnnotations key m [])
    | _ => None
    end.

(** [%q] of a slice of strings: the quoted elements, separated by spaces,
    in brackets. *)
Definition quoteSlice (l : list string) : string :=
  "[" +:+ String.concat " " (map strconv_Quote l) +:+ "]".

(** [validation.StringInSlice] of the SDK's helper package. *)
Definition StringInSlice (valid : list string) (ignoreCase : bool)
  : SchemaValidateFunc :=
  λ i k,
    match i with
    | VString v =>
        if existsb
             (λ str, String.eqb v str || (ignoreCase && strings_EqualFold v str))
             valid
        then Some ([], [])
        else Some ([], [errorString
               ("expected " +:+ k +:+ " to be one of " +:+ quoteSlice valid
                +:+ ", got " +:+ v)])
    | _ => Some ([], [errorString ("expected type of " +:+ k +:+ " to be string")])
    end.

Definition defaultAttributes : gmap string value :=
  list_to_map [
    ("block_size", VInt 26);
    ("ipip_mode", VString "Never");
    ("vxlan_mode", VString "Never");
    ("nat_outgoing", VBool false);
    ("disabled", VBool false);
    ("disable_bgp_export", VBool false)
  ].

Definition modeNames : list string := ["Always"; "CrossSubnet"; "Never"].

Definition metadataSchema : list (string * Schema) := [
  ("name",
    mkSchema TypeString true false true true None 0 None [] ElemNone);
  ("resource_version",
    mkSchema TypeString false false false true None 0 None [] ElemNone);
  ("annotations",
    mkSchema TypeMap true false false false None 0
      (Some validateAnnotations) [] (ElemSchema (zeroSchema TypeString)))
].

Definition specSchema : list (string * Schema) := [
  ("cidr",
    mkSchema TypeString false true true false None 0 None [] ElemNone);
  ("block_size",
    mkSchema TypeInt true false true false
      (defaultAttributes !! "block_size") 0 None [] ElemNone);
  ("ipip_mode",
    mkSchema TypeString true false false false
      (defaultAttributes !! "ipip_mode") 0
      (Some (StringInSlice modeNames false)) ["spec.0.vxlan_mode"] ElemNone);
  ("vxlan_mode",
    mkSchema TypeString true false false false
      (defaultAttributes !! "vxlan_mode") 0
      (Some (StringInSlice modeNames false)) ["spec.0.ipip_mode"] ElemNone);
  ("nat_outgoing",
    mkSchema TypeBool true false false false
      (defaultAttributes !! "nat_outgoing") 0 None [] ElemNone);
  ("disabled",
    mkSchema TypeBool true false false false
      (defaultAttributes !! "disabled") 0 None [] ElemNone);
  ("disable_bgp_export",
    mkSchema TypeBool true false false false
      (defaultAttributes !! "disable_bgp_export") 0 None [] ElemNone)
].

Definition resourceCalicoIPPoolSchemaV3 : list (string * Schema) := [
  ("metadata",
    mkSchema TypeList false true false false None 0 None []
      (ElemResource metadataSchema));
  ("spec",
    mkSchema TypeList false true false false None 1 None []
      (ElemResource specSchema))
].

(** [m[k]] on a schema map written as the list of its entries. *)
Fixpoint schemaLookup (k : string) (m : list (string * Schema)) : option Schema :=
  match m with
  | [] => None
  | (k', s) :: m' => if String.eqb k k' then Some s else schemaLookup k m'
  end.

(** *** Validation of a configuration by the SDK

    The part of the SDK's [schemaMap.validate] that decides on the
    attributes of this resource: the presence of the attribute, a value
    still unknown (validation is put off), [ConflictsWith], and the
    attribute's [ValidateFunc]. The conversion of the raw value to the
    attribute's type is not represented. *)

Definition isWhollyKnown (raw : value) : bool :=
  match raw with VUnknown => false | _ => true end.

Fixpoint validateConflictingAttributesLoop
    (k : string) (keys : list string) (c : ResourceConfig) : option error :=
  match keys with
  | [] => None
  | conflictingKey :: keys' =>
      match c !! conflictingKey with
      | Some VUnknown => validateConflictingAttributesLoop k keys' c
      | Some _ =>
          Some (errorString
                  (strconv_Quote k +:+ ": conflicts with " +:+ conflictingKey))
      | None => validateConflictingAttributesLoop k keys' c
      end
  end.

Definition validateConflictingAttributes
    (k : string) (s : Schema) (c : ResourceConfig) : option error :=
  validateConflictingAttributesLoop k (ConflictsWith s) c.

Definition validateType (k : string) (raw : value) (s : Schema)
  : option Diagnostics :=
  match ValidateFunc s with
  | None => Some []
  | Some f =>
      match f raw k with
      | Some (ws, es) =>
          Some (app (map warningDiagnostic ws)
                    (map (λ e, errorDiagnostic (Error e) EmptyString) es))
      | None => None
      end
  end.

Definition validateAttribute (k : string) (s : Schema) (c : ResourceConfig)
  : option Diagnostics :=
  match c !! k with
  | None =>
      Some (if Required s
            then [errorDiagnostic "Missing required argument" k]
            else [])
  | Some raw =>
      if negb (Required s) && negb (Optional s)
      then Some [errorDiagnostic "Value for unconfigurable attribute" k]
      else if negb (isWhollyKnown raw) then Some []
      else
        match validateConflictingAttributes k s c with
        | Some err =>
            Some [errorDiagnostic "Conflicting configuration arguments" (Error err)]
        | None => validateType k raw s
        end
  end.

(** The diagnostic of the SDK for [k] set together with [other]. *)
Definition conflictDiagnostic (k other : string) : Diagnostic :=
  errorDiagnostic "Conflicting configuration arguments"
    (strconv_Quote k +:+ ": conflicts with " +:+ other).

(** The attributes of a nested resource, under the path [prefix]. *)
Fixpoint validateObject
    (prefix : string) (fields : list (string * Schema)) (c : ResourceConfig)
  : option Diagnostics :=
  match fields with
  | [] => Some []
  | (k, s) :: fields' =>
      match validateAttribute (prefix +:+ "." +:+ k) s c with
      | None => None
      | Some ds =>
          match validateObject prefix fields' c with
          | None => None
          | Some ds' => Some (app ds ds')
          end
      end
  end.

(** The blocks of the resource; each is a list whose element [0] holds the
    attributes. *)
Fixpoint validateBlocks
    (blocks : list (string * Schema)) (c : ResourceConfig) : option Diagnostics :=
  match blocks with
  | [] => Some []
  | (k, s) :: blocks' =>
      let here :=
        match Elem s with
        | ElemResource fields => validateObject (k +:+ ".0") fields c
        | _ => Some []
        end in
      match here with
      | None => None
      | Some ds =>
          match validateBlocks blocks' c with
          | None => None
          | Some ds' => Some (app ds ds')
          end
      end
  end.

(** Validation of a configuration of the resource: a pure function of the
    configuration, run by the SDK before any lifecycle operation. *)
Definition Validate (c : ResourceConfig) : option Diagnostics :=
  validateBlocks resourceCalicoIPPoolSchemaV3 c.

End Schema.

(** ** Resource data *)

(** [*schema.ResourceData] of this resource: the identifier and one field per
    attribute path. *)
Record ResourceData := mkResourceData {
  Id : string;
  metadata_name : string;
  metadata_resource_version : string;
  metadata_annotations : gmap string string;
  spec_cidr : string;
  spec_block_size : Z;
  spec_ipip_mode : string;
  spec_vxlan_mode : string;
  spec_nat_outgoing : bool;
  spec_disabled : bool;
  spec_disable_bgp_export : bool
}.

(** [d.SetId(v)] *)
Definition SetId (d : ResourceData) (v : string) : ResourceData :=
  mkResourceData v
    (metadata_name d) (metadata_resource_version d) (metadata_annotations d)
    (spec_cidr d) (spec_block_size d) (spec_ipip_mode d) (spec_vxlan_mode d)
    (spec_nat_outgoing d) (spec_disabled d) (spec_disable_bgp_export d).

(** [d.Set("metadata", []map[string]interface{}{{"name": .., ...}})]: the
    three attributes of the block are overwritten. The values written are of
    the attributes' types, so the SDK reports no error. *)
Definition Set_metadata (d : ResourceData)
    (name resource_version : string) (annotations : gmap string string)
  : ResourceData * option error :=
  (mkResourceData (Id d) name resource_version annotations
     (spec_cidr d) (spec_block_size d) (spec_ipip_mode d) (spec_vxlan_mode d)
     (spec_nat_outgoing d) (spec_disabled d) (spec_disable_bgp_export d),
   None).

(** [d.Set("spec", []map[string]interface{}{{...}})], likewise. *)
Definition Set_spec (d : ResourceData)
    (block_size : Z) (cidr : string) (disabled : bool)
    (ipip_mode vxlan_mode : string) (nat_outgoing disable_bgp_export : bool)
  : ResourceData * option error :=
  (mkResourceData (Id d)
     (metadata_name d) (metadata_resource_version d) (metadata_annotations d)
     cidr block_size ipip_mode vxlan_mode nat_outgoing disabled disable_bgp_export,
   None).

Definition setResourceAttributes (d : ResourceData) (r : calicov3.IPPool)
  : ResourceData * option error :=
  let d := SetId d (calicov3.Name r) in
  let '(d, err) :=
    Set_metadata d (calicov3.Name r) (calicov3.ResourceVersion r)
      (calicov3.Annotations r) in
  match err with
  | Some e => (d, Some e)
  | None =>
      let spec := calicov3.Spec r in
      let '(d, err) :=
        Set_spec d (calicov3.BlockSize spec) (calicov3.CIDR spec)
          (calicov3.Disabled spec) (calicov3.IPIPMode_ spec)
          (calicov3.VXLANMode_ spec) (calicov3.NATOutgoing spec)
          (calicov3.DisableBGPExport spec) in
      match err with
      | Some e => (d, Some e)
      | None => (d, None)
      end
  end.

(** The API object that the resource data describe, field by field. *)
Definition poolOf (d : ResourceData) : calicov3.IPPool :=
  calicov3.mkIPPool
    (metadata_name d)
    (metadata_resource_version d)
    (metadata_annotations d)
    (calicov3.mkIPPoolSpec
       (spec_cidr d)
       (getVXLANMode (spec_vxlan_mode d))
       (getIPIPMode (spec_ipip_mode d))
       (spec_nat_outgoing d)
       (spec_disabled d)
       (spec_disable_bgp_export d)
       (spec_block_size d)).

(** [expandStringMap]: a fresh map that receives every entry of [m]. *)
Definition expandStringMap (m : gmap string string) : gmap string string :=
  map_fold (λ k v result, <[k := v]> result) ∅ m.

(** [setIPPoolAttributes] fills the object [r] from the resource data and
    always returns a [nil] error. *)
Definition setIPPoolAttributes (d : ResourceData) (r : calicov3.IPPool)
  : calicov3.IPPool * option error :=
  let spec :=
    calicov3.mkIPPoolSpec
      (spec_cidr d)
      (getVXLANMode (spec_vxlan_mode d))
      (getIPIPMode (spec_ipip_mode d))
      (spec_nat_outgoing d)
      (spec_disabled d)
      (spec_disable_bgp_export d)
      (spec_block_size d) in
  (calicov3.mkIPPool
     (metadata_name d)
     (metadata_resource_version d)
     (expandStringMap (metadata_annotations d))
     spec,
   None).

(** ** The world: remote API, mutex and the calls issued *)

(** A call on [p.ProjectcalicoV3().IPPools()]. *)
Inductive Call :=
| CallGet (name : string)
| CallCreate (obj : calicov3.IPPool)
| CallUpdate (obj : calicov3.IPPool)
| CallDelete (name : string).

Inductive Event :=
| EvLock
| EvUnlock
| EvCall (c : Call).

Section World.

(** The state of the remote API server. *)
Context {Remote : Type}.

(** [*clientset.Clientset], reduced to the IP pool interface: each method
    answers from the remote state and may change it. *)
Record Clientset := mkClientset {
  IPPools_Get : string → Remote → (calicov3.IPPool + error) * Remote;
  IPPools_Create : calicov3.IPPool → Remote → (calicov3.IPPool + error) * Remote;
  IPPools_Update : calicov3.IPPool → Remote → (calicov3.IPPool + error) * Remote;
  IPPools_Delete : string → Remote → option error * Remote
}.

(** Modelled from the spec: the shared handle [Meta], which the package
    declares outside the resource file. It embeds the one lock that reads take
    (its state is [locked] of the world) and hands out the shared API
    client: [GetCalicoConfiguration] yields the client or an error, and is
    taken to answer without a remote call and without holding the lock once
    it has returned. *)
Record Meta := mkMeta {
  GetCalicoConfiguration : Clientset + error
}.

Record World := mkWorld {
  remote : Remote;
  locked : bool;
  trace : list Event
}.

Definition emit (ev : Event) (w : World) : World :=
  mkWorld (remote w) (locked w) (trace w ++ [ev]).

(** How a computation ends: it returns, it waits for the lock for ever, or
    the runtime stops the program (unlock of an unlocked mutex). *)
Inductive Outcome (A : Type) :=
| Returned (a : A) (w : World)
| Blocked (w : World)
| Fatal (w : World).

Arguments Returned {A} a w.
Arguments Blocked {A} w.
Arguments Fatal {A} w.

Definition M (A : Type) : Type := World → Outcome A.

Definition ret {A} (a : A) : M A := λ w, Returned a w.

Definition bind {A B} (c : M A) (k : A → M B) : M B :=
  λ w,
    match c w with
    | Returned a w' => k a w'
    | Blocked w' => Blocked w'
    | Fatal w' => Fatal w'
    end.

Notation "'let!' x ':=' c 'in' k" := (bind c (λ x, k))
  (at level 10, x pattern, c at level 100, k at level 200, only parsing).

(** Modelled from the spec: [m.Lock()], the acquisition of the one lock of
    [Meta]. A mutual-exclusion lock is taken only when free; a caller that
    finds it held waits. *)
Definition Lock (m : Meta) : M unit :=
  λ w,
    if locked w then Blocked w
    else Returned tt (emit EvLock (mkWorld (remote w) true (trace w))).

(** Modelled from the spec: [m.Unlock()], the release of that lock. Go's
    runtime stops the program when a lock that is not held is released. *)
Definition Unlock (m : Meta) : M unit :=
  λ w,
    if locked w
    then Returned tt (emit EvUnlock (mkWorld (remote w) false (trace w)))
    else Fatal w.

(** [defer u]: [u] runs when the body returns, whichever [return] it took. *)
Definition defer {A} (u : M unit) (body : M A) : M A :=
  let! a := body in let! _ := u in ret a.

(** The four remote calls, each recorded in the trace. *)
Definition Get (p : Clientset) (name : string) : M (calicov3.IPPool + error) :=
  λ w,
    let '(r, rem) := IPPools_Get p name (remote w) in
    Returned r (emit (EvCall (CallGet name)) (mkWorld rem (locked w) (trace w))).

Definition Create (p : Clientset) (obj : calicov3.IPPool)
  : M (calicov3.IPPool + error) :=
  λ w,
    let '(r, rem) := IPPools_Create p obj (remote w) in
    Returned r (emit (EvCall (CallCreate obj)) (mkWorld rem (locked w) (trace w))).

Definition Update (p : Clientset) (obj : calicov3.IPPool)
  : M (calicov3.IPPool + error) :=
  λ w,
    let '(r, rem) := IPPools_Update p obj (remote w) in
    Returned r (emit (EvCall (CallUpdate obj)) (mkWorld rem (locked w) (trace w))).

Definition Delete (p : Clientset) (name : string) : M (option error) :=
  λ w,
    let '(err, rem) := IPPools_Delete p name (remote w) in
    Returned err (emit (EvCall (CallDelete name)) (mkWorld rem (locked w) (trace w))).

(** ** The operations of the resource *)

Definition getIPPool (m : Meta) (p : Clientset) (name : string)
  : M (calicov3.IPPool + error) :=
  let! _ := Lock m in
  defer (Unlock m)
    (let! r := Get p name in
     match r with
     | inr err => ret (inr err)
     | inl r => ret (inl r)
     end).

Definition resourceIPPoolExists (d : ResourceData) (meta : Meta)
  : M (bool * option error) :=
  let name := metadata_name d in
  let m := meta in
  match GetCalicoConfiguration m with
  | inr err => ret (false, Some err)
  | inl p =>
      let! r := getIPPool m p name in
      match r with
      | inl _ => ret (true, None)
      | inr err => ret (false, Some err)
      end
  end.

Definition resourceIPPoolRead (d : ResourceData) (meta : Meta)
  : M (ResourceData * Diagnostics) :=
  let! x := resourceIPPoolExists d meta in
  let '(exists_, err) := x in
  match err with
  | Some _ => ret (d, FromErr err)
  | None =>
      if negb exists_ then ret (SetId d EmptyString, [])
      else
        let m := meta in
        match GetCalicoConfiguration m with
        | inr err => ret (d, FromErr (Some err))
        | inl p =>
            let name := metadata_name d in
            let! r := getIPPool m p name in
            match r with
            | inr err => ret (d, FromErr (Some err))
            | inl r =>
                let '(d, err) := setResourceAttributes d r in
                match err with
                | Some _ => ret (d, FromErr err)
                | None => ret (d, [])
                end
            end
        end
  end.

Definition resourceIPPoolCreate (d : ResourceData) (meta : Meta)
  : M (ResourceData * Diagnostics) :=
  let m := meta in
  match GetCalicoConfiguration m with
  | inr err => ret (d, FromErr (Some err))
  | inl p =>
      let '(ippool, err) := setIPPoolAttributes d calicov3.zeroIPPool in
      match err with
      | Some _ => ret (d, FromErr err)
      | None =>
          let! r := Create p ippool in
          match r with
          | inr err => ret (d, FromErr (Some err))
          | inl _ => ret (SetId d (calicov3.Name ippool), [])
          end
      end
  end.

Definition resourceIPPoolUpdate (d : ResourceData) (meta : Meta)
  : M (ResourceData * Diagnostics) :=
  let m := meta in
  match GetCalicoConfiguration m with
  | inr err => ret (d, FromErr (Some err))
  | inl p =>
      let '(ippool, err) := setIPPoolAttributes d calicov3.zeroIPPool in
      match err with
      | Some _ => ret (d, FromErr err)
      | None =>
          let! r := Update p ippool in
          match r with
          | inr err => ret (d, FromErr (Some err))
          | inl _ => ret (SetId d (calicov3.Name ippool), [])
          end
      end
  end.

Definition resourceIPPoolDelete (d : ResourceData) (meta : Meta)
  : M (ResourceData * Diagnostics) :=
  let name := metadata_name d in
  let m := meta in
  match GetCalicoConfiguration m with
  | inr err => ret (d, FromErr (Some err))
  | inl p =>
      let! err := Delete p name in
      match err with
      | Some _ => ret (d, FromErr err)
      | None => ret (d, [])
      end
  end.

(** *** Reading a trace *)

(** The events a computation added to the trace of [w]. *)
Definition emitted (w w' : World) : list Event :=
  drop (length (trace w)) (trace w').

Definition isLockEvent (ev : Event) : bool :=
  match ev with EvLock | EvUnlock => true | EvCall _ => false end.

(** [readsUnderLock held evs]: starting with the lock held or not, every
    Get call in [evs] happens while the lock is held. *)
Fixpoint readsUnderLock (held : bool) (evs : list Event) : bool :=
  match evs with
  | [] => true
  | EvLock :: evs' => readsUnderLock true evs'
  | EvUnlock :: evs' => readsUnderLock false evs'
  | EvCall (CallGet _) :: evs' => held && readsUnderLock held evs'
  | EvCall _ :: evs' => readsUnderLock held evs'
  end.

(** The remote calls among the events, in order. *)
Fixpoint calls (evs : list Event) : list Call :=
  match evs with
  | [] => []
  | EvCall c :: evs' => c :: calls evs'
  | _ :: evs' => calls evs'
  end.

(** An operation that returns whatever the state of the lock, adds no lock
    event to the trace and leaves the lock as it found it. *)
Definition lockFree
    (op : ResourceData → Meta → M (ResourceData * Diagnostics))
    (d : ResourceData) (meta : Meta) (w : World) : Prop :=
  ∃ x w', op d meta w = Returned x w'
          ∧ existsb isLockEvent (emitted w w') = false
          ∧ locked w' = locked w.

End World.

Arguments Clientset Remote : clear implicits.
Arguments Meta Remote : clear implicits.
Arguments World Remote : clear implicits.
Arguments Returned {Remote A} a w.
Arguments Blocked {Remote A} w.
Arguments Fatal {Remote A} w.

(** ** The resource and the untyped annotations *)

Section Resource.

Context {lib : Library} {Remote : Type}.

(** [schema.Resource], with the fields the provider sets. *)
Record Resource := mkResource {
  CreateContext : ResourceData → Meta Remote → @M Remote (ResourceData * Diagnostics);
  ReadContext : ResourceData → Meta Remote → @M Remote (ResourceData * Diagnostics);
  UpdateContext : ResourceData → Meta Remote → @M Remote (ResourceData * Diagnostics);
  DeleteContext : ResourceData → Meta Remote → @M Remote (ResourceData * Diagnostics);
  Schema_ : list (string * Schema)
}.

Definition resourceIPPool : Resource :=
  mkResource
    resourceIPPoolCreate
    resourceIPPoolRead
    resourceIPPoolUpdate
    resourceIPPoolDelete
    resourceCalicoIPPoolSchemaV3.

(** The four operations the resource registers. *)
Definition contexts (res : Resource)
  : list (ResourceData → Meta Remote → @M Remote (ResourceData * Diagnostics)) :=
  [CreateContext res; ReadContext res; UpdateContext res; DeleteContext res].

End Resource.

Arguments Resource Remote : clear implicits.

(** [expandStringMap] on the map as [d.Get] returns it, of type
    [map[string]interface{}]: [result[k] = v.(string)] for each entry in the
    order of [range]; the type assertion panics ([None]) on a value that is
    not a string. *)
Fixpoint expandStringMapRange (m : rawMap) (result : gmap string string)
  : option (gmap string string) :=
  match m with
  | [] => Some result
  | (k, v) :: m' =>
      match v with
      | VString s => expandStringMapRange m' (<[k := s]> result)
      | _ => None
      end
  end.

Definition expandStringMapUntyped (m : rawMap) : option (gmap string string) :=
  expandStringMapRange m ∅.

(** ** An API server in memory

    A remote API that keeps the pools in a map keyed by name, in the manner
    of the API machinery's fake clientsets: Get and Delete fail with a
    not-found status on an absent name, Create fails on a name that exists
    and gives the stored object a first resource version, Update requires the
    stored resource version and stores the object under the next one. *)
Module fake.

Definition notFound (name : string) : error :=
  StatusError StatusReasonNotFound ("ippools " +:+ name +:+ " not found").

Definition alreadyExists (name : string) : error :=
  StatusError StatusReasonAlreadyExists ("ippools " +:+ name +:+ " already exists").

Definition conflict (name : string) : error :=
  StatusError StatusReasonConflict
    ("the object " +:+ name +:+ " has been modified").

Definition withVersion (obj : calicov3.IPPool) (v : string) : calicov3.IPPool :=
  calicov3.mkIPPool (calicov3.Name obj) v (calicov3.Annotations obj)
    (calicov3.Spec obj).

Definition get (name : string) (st : gmap string calicov3.IPPool)
  : (calicov3.IPPool + error) * gmap string calicov3.IPPool :=
  match st !! name with
  | Some r => (inl r, st)
  | None => (inr (notFound name), st)
  end.

Definition create (obj : calicov3.IPPool) (st : gmap string calicov3.IPPool)
  : (calicov3.IPPool + error) * gmap string calicov3.IPPool :=
  match st !! calicov3.Name obj with
  | Some _ => (inr (alreadyExists (calicov3.Name obj)), st)
  | None =>
      let stored := withVersion obj "1" in
      (inl stored, <[calicov3.Name obj := stored]> st)
  end.

Definition update (obj : calicov3.IPPool) (st : gmap string calicov3.IPPool)
  : (calicov3.IPPool + error) * gmap string calicov3.IPPool :=
  match st !! calicov3.Name obj with
  | None => (inr (notFound (calicov3.Name obj)), st)
  | Some old =>
      if String.eqb (calicov3.ResourceVersion old) (calicov3.ResourceVersion obj)
      then
        let stored := withVersion obj (calicov3.ResourceVersion old +:+ "1") in
        (inl stored, <[calicov3.Name obj := stored]> st)
      else (inr (conflict (calicov3.Name obj)), st)
  end.

Definition delete (name : string) (st : gmap string calicov3.IPPool)
  : option error * gmap string calicov3.IPPool :=
  match st !! name with
  | Some _ => (None, base.delete name st)
  | None => (Some (notFound name), st)
  end.

Definition clientset : Clientset (gmap string calicov3.IPPool) :=
  mkClientset get create update delete.

(** A handle that hands out the client, and one that cannot. *)
Definition meta : Meta (gmap string calicov3.IPPool) := mkMeta (inl clientset).

Definition unconfigured : Meta (gmap string calicov3.IPPool) :=
  mkMeta (inr (errorString "no configuration has been provided")).

(** A client whose every call fails in transport. *)
Definition refused : error := errorString "connection refused".

Definition unreachable : Clientset (gmap string calicov3.IPPool) :=
  mkClientset
    (λ _ st, (inr refused, st)) (λ _ st, (inr refused, st))
    (λ _ st, (inr refused, st)) (λ _ st, (Some refused, st)).

(** The server with no pool, the lock free, nothing issued yet. *)
Definition emptyWorld : World (gmap string calicov3.IPPool) :=
  mkWorld ∅ false [].

(** Resource data of a pool named [pool-a], as after a plan. *)
Definition poolA : ResourceData :=
  mkResourceData "pool-a" "pool-a" EmptyString ∅
    "10.144.1.0/24" 27 "Always" "Never" true false false.

(** The same before the pool is created: no identifier yet. *)
Definition newPoolA : ResourceData := SetId poolA EmptyString.

(** The same after a read of the stored pool: the resource version is known. *)
Definition readPoolA : ResourceData :=
  mkResourceData "pool-a" "pool-a" "1" ∅
    "10.144.1.0/24" 27 "Always" "Never" true false false.

(** A handle whose client cannot reach the server. *)
Definition cutOff : Meta (gmap string calicov3.IPPool) := mkMeta (inl unreachable).

(** The server that already holds [pool-a], at its first version. *)
Definition worldWithA : World (gmap string calicov3.IPPool) :=
  mkWorld {[ "pool-a" := withVersion (poolOf poolA) "1" ]} false [].

(** The same while another caller holds the lock. *)
Definition worldLocked : World (gmap string calicov3.IPPool) :=
  mkWorld {[ "pool-a" := withVersion (poolOf poolA) "1" ]} true [].

(** A configuration that writes both modes. *)
Definition bothModes : gmap string value :=
  list_to_map [
    ("metadata.0.name", VString "pool-a");
    ("spec.0.cidr", VString "10.144.1.0/24");
    ("spec.0.ipip_mode", VString "Always");
    ("spec.0.vxlan_mode", VString "CrossSubnet")
  ].

(** Configurations that the validation refuses: a mode in lower case, no
    CIDR, and an annotation with the empty key. *)
Definition lowerCaseMode : gmap string value :=
  list_to_map [
    ("spec.0.cidr", VString "10.144.1.0/24");
    ("spec.0.ipip_mode", VString "always")
  ].

Definition noCidr : gmap string value :=
  list_to_map [("metadata.0.name", VString "pool-a")].


(** Stand-ins for the library functions, to run the validation on
    examples: lower-casing of the ASCII letters, comparison after
    lower-casing, quoting without escapes, and the two rules of
    [IsQualifiedName] on the length of the name. *)
Definition lowerAscii (c : ascii) : ascii :=
  let n := nat_of_ascii c in
  if bool_decide (65 ≤ n ≤ 90)%nat then ascii_of_nat (n + 32) else c.

Fixpoint ToLower (s : string) : string :=
  match s with
  | EmptyString => EmptyString
  | String c s' => String (lowerAscii c) (ToLower s')
  end.

Definition EqualFold (s t : string) : bool := String.eqb (ToLower s) (ToLower t).

Definition Quote (s : string) : string :=
  String (ascii_of_nat 34) (s +:+ String (ascii_of_nat 34) EmptyString).

Definition IsQualifiedName (s : string) : list string :=
  (if bool_decide (String.length s = 0)%nat
   then ["name part must be non-empty"] else [])
  ++ (if bool_decide (63 < String.length s)%nat
      then ["name part must be no more than 63 characters"] else []).

Definition library : Library := Build_Library ToLower EqualFold Quote IsQualifiedName.

End fake.

(** * Properties *)

(** ** Field mapping *)

Lemma expandStringMap_id (m : gmap string string) : expandStringMap m = m.
Proof.
  unfold expandStringMap.
  apply (map_fold_weak_ind (λ r m, r = m)); [done |].
  intros i x m' r _ ->. done.
Qed.

Lemma setIPPoolAttributes_poolOf (d : ResourceData) (r : calicov3.IPPool) :
  setIPPoolAttributes d r = (poolOf d, None).
Proof.
  unfold setIPPoolAttributes, poolOf. by rewrite expandStringMap_id.
Qed.

(** ** Mode translation *)

Lemma eqb_false_of_ne (s t : string) : s ≠ t → String.eqb s t = false.
Proof. intros H. by apply String.eqb_neq. Qed.

(** C3. [getIPIPMode] and [getVXLANMode] map the string Always to the mode
    Always and CrossSubnet to the mode CrossSubnet; every other string,
    the empty one included, is mapped to Never. Both are total functions into
    the mode type: no input produces an error, and the result is always one
    of the three modes. *)
Theorem mode_translation (mode : string) :
  getIPIPMode "Always" = calicov3.IPIPModeAlways
  ∧ getIPIPMode "CrossSubnet" = calicov3.IPIPModeCrossSubnet
  ∧ getVXLANMode "Always" = calicov3.VXLANModeAlways
  ∧ getVXLANMode "CrossSubnet" = calicov3.VXLANModeCrossSubnet
  ∧ (mode ≠ "Always" → mode ≠ "CrossSubnet" →
       getIPIPMode mode = calicov3.IPIPModeNever
       ∧ getVXLANMode mode = calicov3.VXLANModeNever)
  ∧ getIPIPMode mode ∈
      [calicov3.IPIPModeAlways; calicov3.IPIPModeCrossSubnet; calicov3.IPIPModeNever]
  ∧ getVXLANMode mode ∈
      [calicov3.VXLANModeAlways; calicov3.VXLANModeCrossSubnet;
       calicov3.VXLANModeNever].
Proof.
  repeat split; try reflexivity.
  - unfold getIPIPMode.
    by rewrite (eqb_false_of_ne mode "Always"), (eqb_false_of_ne mode "CrossSubnet").
  - unfold getVXLANMode.
    by rewrite (eqb_false_of_ne mode "Always"), (eqb_false_of_ne mode "CrossSubnet").
  - unfold getIPIPMode.
    destruct (String.eqb mode "Always"); [set_solver |].
    destruct (String.eqb mode "CrossSubnet"); set_solver.
  - unfold getVXLANMode.
    destruct (String.eqb mode "Always"); [set_solver |].
    destruct (String.eqb mode "CrossSubnet"); set_solver.
Qed.

Lemma mode_translation_witness :
  ("sometimes" ≠ "Always" ∧ "sometimes" ≠ "CrossSubnet")
  ∧ getIPIPMode "sometimes" = calicov3.IPIPModeNever
  ∧ getVXLANMode "sometimes" = calicov3.VXLANModeNever
  ∧ getIPIPMode EmptyString = calicov3.IPIPModeNever.
Proof.
  split; [split; discriminate |].
  destruct (mode_translation "sometimes") as (_ & _ & _ & _ & H & _).
  destruct (mode_translation EmptyString) as (_ & _ & _ & _ & H' & _).
  split; [apply H; discriminate |].
  split; [apply H; discriminate |].
  apply H'; discriminate.
Defined.

(** ** Validation of annotation keys *)

Section ValidateAnnotations.

Context {lib : Library}.

(* The errors reported for one key: one for each violation of the
   lower-cased key, in the order of the violations. *)
Local Abbreviation keyErrors key k :=
  (map (annotationError key k) (IsQualifiedName (strings_ToLower k))).

Lemma appendAnnotationErrors_app key k errors es :
  appendAnnotationErrors key k errors es
  = es ++ map (annotationError key k) errors.
Proof.
  revert es. induction errors as [|e errors IH]; intros es; simpl.
  - by rewrite app_nil_r.
  - rewrite IH. by rewrite <- app_assoc.
Qed.

Lemma rangeAnnotations_app key (m : rawMap) es :
  rangeAnnotations key m es
  = es ++ flat_map (λ kv, keyErrors key kv.1) m.
Proof.
  revert es. induction m as [|[k v] m IH]; intros es; simpl.
  - by rewrite app_nil_r.
  - rewrite IH.
    case_bool_decide as Hlen.
    + rewrite appendAnnotationErrors_app. by rewrite <- app_assoc.
    + destruct (IsQualifiedName (strings_ToLower k)); [|simpl in Hlen; lia].
      simpl. done.
Qed.

(** C4. For every annotations map, [validateAnnotations] returns no warning
    and a list of errors that holds, for each key and each violation that
    the qualified-name syntax finds in the lower-cased key, the error made
    from the key and that violation: no key is skipped after an earlier
    one failed, the number of errors is the total number of violations, and
    every error stems from a key of the map. A map whose lower-cased keys
    are all qualified names gives no error. *)
Theorem validateAnnotations_collects (m : rawMap) (key : string) :
  ∃ es : list error,
    validateAnnotations (VMap m) key = Some ([], es)
    ∧ (∀ k v e, (k, v) ∈ m → e ∈ IsQualifiedName (strings_ToLower k) →
         annotationError key k e ∈ es)
    ∧ length es
      = sum_list (map (λ kv, length (IsQualifiedName (strings_ToLower kv.1))) m)
    ∧ (∀ err, err ∈ es →
         ∃ k v e, (k, v) ∈ m ∧ e ∈ IsQualifiedName (strings_ToLower k)
                  ∧ err = annotationError key k e)
    ∧ ((∀ k v, (k, v) ∈ m → IsQualifiedName (strings_ToLower k) = []) → es = []).
Proof.
  exists (flat_map (λ kv, keyErrors key kv.1) m).
  split; [simpl; by rewrite rangeAnnotations_app |].
  split; [|split; [|split]].
  - intros k v e Hk He. apply list_elem_of_In, in_flat_map.
    exists (k, v). split; [by apply list_elem_of_In |].
    apply list_elem_of_In. simpl.
    by apply list_elem_of_fmap_2.
  - induction m as [|[k v] m IH]; [done |].
    simpl. rewrite length_app, IH.
    by rewrite length_map.
  - intros err Herr. apply list_elem_of_In, in_flat_map in Herr.
    destruct Herr as ([k v] & Hk & He). simpl in He.
    apply list_elem_of_In in He.
    apply list_elem_of_fmap in He as (e & -> & He).
    exists k, v, e. split; [by apply list_elem_of_In | done].
  - intros Hall. induction m as [|[k v] m IH]; [done |].
    simpl.
    rewrite (Hall k v) by apply list_elem_of_here. simpl.
    apply IH. intros k' v' Hk'. apply (Hall k' v'). by apply list_elem_of_further.
Qed.

End ValidateAnnotations.

(** Two entries, of which the one with the empty key is reported. *)
Lemma validateAnnotations_collects_witness :
  ∃ es : list error,
    validateAnnotations (lib := fake.library)
      (VMap [("Owner", VString "net"); (EmptyString, VString "x")])
      "metadata.0.annotations" = Some ([], es)
    ∧ annotationError (lib := fake.library) "metadata.0.annotations" EmptyString
        "name part must be non-empty" ∈ es
    ∧ length es = 1%nat
    ∧ (∃ k v e,
         (k, v) ∈ [("Owner", VString "net"); (EmptyString, VString "x")]
         ∧ e ∈ IsQualifiedName (Library := fake.library)
                 (strings_ToLower (Library := fake.library) k)
         ∧ annotationError (lib := fake.library) "metadata.0.annotations"
             EmptyString "name part must be non-empty"
           = annotationError (lib := fake.library) "metadata.0.annotations" k e)
    ∧ (∃ es' : list error,
         validateAnnotations (lib := fake.library)
           (VMap [("Owner", VString "net")]) "metadata.0.annotations"
         = Some ([], es')
         ∧ es' = []).
Proof.
  destruct (validateAnnotations_collects (lib := fake.library)
              [("Owner", VString "net"); (EmptyString, VString "x")]
              "metadata.0.annotations")
    as (es & Hes & Hin & Hlen & Hsound & _).
  destruct (validateAnnotations_collects (lib := fake.library)
              [("Owner", VString "net")]
              "metadata.0.annotations")
    as (es' & Hes' & _ & _ & _ & Hnil).
  assert (Hbad : annotationError (lib := fake.library) "metadata.0.annotations"
                   EmptyString "name part must be non-empty" ∈ es).
  { apply (Hin EmptyString (VString "x")).
    - apply list_elem_of_further, list_elem_of_here.
    - vm_compute. apply list_elem_of_here. }
  exists es. split; [exact Hes |]. split; [exact Hbad |].
  split; [exact Hlen |]. split; [exact (Hsound _ Hbad) |].
  exists es'. split; [exact Hes' |]. apply Hnil.
  intros k v Hk. apply list_elem_of_singleton in Hk.
  injection Hk as -> ->. reflexivity.
Defined.

(** ** Lifecycle operations *)

(** Unfolds the operations and the monad down to the API's answers. *)
Ltac unfold_ops :=
  unfold resourceIPPoolRead, resourceIPPoolExists, resourceIPPoolCreate,
    resourceIPPoolUpdate, resourceIPPoolDelete, getIPPool, defer,
    Get, Create, Update, Delete, Lock, Unlock, bind, ret, emit in *;
  simpl in *.

Section Lifecycle.

Context {Remote : Type}.
Implicit Types (d : ResourceData) (meta : Meta Remote) (p : Clientset Remote).
Implicit Types (w : World Remote) (e : error) (r : calicov3.IPPool).

(** [getIPPool] with the lock free: lock, one Get, unlock, and the answer of
    the API handed on as it is. *)
Lemma getIPPool_run meta p name w :
  locked w = false →
  getIPPool meta p name w
  = Returned (IPPools_Get p name (remote w)).1
      (mkWorld (IPPools_Get p name (remote w)).2 false
         (trace w ++ [EvLock; EvCall (CallGet name); EvUnlock])).
Proof.
  intros Hfree. unfold_ops. rewrite Hfree. simpl.
  destruct (IPPools_Get p name (remote w)) as [[r|e] rem]; simpl;
    by rewrite <- !app_assoc.
Qed.

Lemma resourceIPPoolExists_run d meta p w :
  GetCalicoConfiguration meta = inl p →
  locked w = false →
  resourceIPPoolExists d meta w
  = Returned
      (match (IPPools_Get p (metadata_name d) (remote w)).1 with
       | inl _ => (true, None)
       | inr e => (false, Some e)
       end)
      (mkWorld (IPPools_Get p (metadata_name d) (remote w)).2 false
         (trace w ++ [EvLock; EvCall (CallGet (metadata_name d)); EvUnlock])).
Proof.
  intros Hp Hfree. unfold resourceIPPoolExists. rewrite Hp.
  unfold bind. rewrite getIPPool_run by done.
  by destruct (IPPools_Get p (metadata_name d) (remote w)) as [[r|e] rem].
Qed.

(** C2. [resourceIPPoolExists] returns [(true, nil)] exactly when the fetch
    of the named pool succeeds; when the fetch fails it returns [false]
    with the error of the fetch, whatever its kind (a not-found status and
    a transport failure are treated alike), and when no client can be
    obtained it returns [false] with that error. It never returns
    [(false, nil)]. *)
Theorem resourceIPPoolExists_result d meta w :
  (∀ p r, GetCalicoConfiguration meta = inl p → locked w = false →
     (IPPools_Get p (metadata_name d) (remote w)).1 = inl r →
     ∃ w', resourceIPPoolExists d meta w = Returned (true, None) w')
  ∧ (∀ p e, GetCalicoConfiguration meta = inl p → locked w = false →
       (IPPools_Get p (metadata_name d) (remote w)).1 = inr e →
       ∃ w', resourceIPPoolExists d meta w = Returned (false, Some e) w')
  ∧ (∀ e, GetCalicoConfiguration meta = inr e →
       resourceIPPoolExists d meta w = Returned (false, Some e) w)
  ∧ (∀ b err w', resourceIPPoolExists d meta w = Returned (b, err) w' →
       (b = true ∧ err = None
        ∧ ∃ p r, GetCalicoConfiguration meta = inl p
                 ∧ (IPPools_Get p (metadata_name d) (remote w)).1 = inl r)
       ∨ (b = false ∧ ∃ e, err = Some e)).
Proof.
  split; [|split; [|split]].
  - intros p r Hp Hfree Hget. rewrite (resourceIPPoolExists_run d meta p w) by done.
    rewrite Hget. eauto.
  - intros p e Hp Hfree Hget. rewrite (resourceIPPoolExists_run d meta p w) by done.
    rewrite Hget. eauto.
  - intros e He. unfold resourceIPPoolExists. by rewrite He.
  - intros b err w' Hrun.
    destruct (GetCalicoConfiguration meta) as [p|e] eqn:Hp.
    + destruct (locked w) eqn:Hfree.
      * unfold_ops. rewrite Hp, Hfree in Hrun. discriminate.
      * rewrite (resourceIPPoolExists_run d meta p w) in Hrun by done.
        destruct (IPPools_Get p (metadata_name d) (remote w)) as [[r|e] rem] eqn:Hget;
          simpl in Hrun; injection Hrun as <- <- <-.
        -- left. repeat split; try done. exists p, r. by rewrite Hget.
        -- right. eauto.
    + unfold resourceIPPoolExists in Hrun. rewrite Hp in Hrun.
      injection Hrun as <- <- <-. right. eauto.
Qed.

(** [resourceIPPoolRead] with a client and the lock free: the fetch of
    [resourceIPPoolExists], then, if that succeeded, a second fetch whose
    object overwrites the resource data. *)
Lemma resourceIPPoolRead_run d meta p w :
  GetCalicoConfiguration meta = inl p →
  locked w = false →
  let name := metadata_name d in
  let a1 := IPPools_Get p name (remote w) in
  let a2 := IPPools_Get p name a1.2 in
  let once := [EvLock; EvCall (CallGet name); EvUnlock] in
  resourceIPPoolRead d meta w
  = match a1.1 with
    | inr e => Returned (d, FromErr (Some e)) (mkWorld a1.2 false (trace w ++ once))
    | inl _ =>
        match a2.1 with
        | inr e =>
            Returned (d, FromErr (Some e))
              (mkWorld a2.2 false (trace w ++ once ++ once))
        | inl r =>
            Returned ((setResourceAttributes d r).1, [])
              (mkWorld a2.2 false (trace w ++ once ++ once))
        end
    end.
Proof.
  intros Hp Hfree name a1 a2 once. unfold resourceIPPoolRead, bind at 1.
  rewrite (resourceIPPoolExists_run d meta p w) by done.
  fold name a1. destruct (a1.1) as [r1|e1] eqn:H1; simpl; [|done].
  rewrite Hp. unfold bind. rewrite getIPPool_run by done. simpl.
  fold name a2. destruct (a2.1) as [r2|e2] eqn:H2; simpl;
    by rewrite <- !app_assoc.
Qed.

(** Whatever error the fetch returns, [resourceIPPoolRead] returns it as a
    diagnostic and leaves the resource data as they were; the branch that
    clears the identifier is not reached. *)
Lemma resourceIPPoolRead_fetch_error d meta p w e :
  GetCalicoConfiguration meta = inl p →
  locked w = false →
  (IPPools_Get p (metadata_name d) (remote w)).1 = inr e →
  ∃ w', resourceIPPoolRead d meta w = Returned (d, FromErr (Some e)) w'.
Proof.
  intros Hp Hfree Hget. rewrite (resourceIPPoolRead_run d meta p w) by done.
  simpl. rewrite Hget. eauto.
Qed.

End Lifecycle.

(** C1 (the code departs from the claim). The pool [pool-a] is absent from
    the server. [resourceIPPoolRead] does not clear the identifier and does
    not return success: [resourceIPPoolExists] hands the not-found error on,
    so the read returns it as an error diagnostic and the identifier stays
    [pool-a]. *)
Theorem resourceIPPoolRead_absent_pool :
  fake.get "pool-a" (remote fake.emptyWorld)
  = (inr (StatusError StatusReasonNotFound "ippools pool-a not found"), ∅)
  ∧ resourceIPPoolRead fake.poolA fake.meta fake.emptyWorld
    = Returned
        (fake.poolA,
         [errorDiagnostic "ippools pool-a not found" EmptyString])
        (mkWorld ∅ false [EvLock; EvCall (CallGet "pool-a"); EvUnlock])
  ∧ Id fake.poolA = "pool-a".
Proof. split; [|split]; reflexivity. Qed.

(** ** Create, Update and Delete *)

Section Writes.

Context {Remote : Type}.
Implicit Types (d : ResourceData) (meta : Meta Remote) (p : Clientset Remote).
Implicit Types (w : World Remote) (e : error) (r : calicov3.IPPool).

Lemma resourceIPPoolCreate_run d meta p w :
  GetCalicoConfiguration meta = inl p →
  resourceIPPoolCreate d meta w
  = Returned
      (match (IPPools_Create p (poolOf d) (remote w)).1 with
       | inl _ => (SetId d (metadata_name d), [])
       | inr e => (d, FromErr (Some e))
       end)
      (mkWorld (IPPools_Create p (poolOf d) (remote w)).2 (locked w)
         (trace w ++ [EvCall (CallCreate (poolOf d))])).
Proof.
  intros Hp. unfold resourceIPPoolCreate. rewrite Hp, setIPPoolAttributes_poolOf.
  unfold_ops.
  by destruct (IPPools_Create p (poolOf d) (remote w)) as [[r|e] rem].
Qed.

Lemma resourceIPPoolUpdate_run d meta p w :
  GetCalicoConfiguration meta = inl p →
  resourceIPPoolUpdate d meta w
  = Returned
      (match (IPPools_Update p (poolOf d) (remote w)).1 with
       | inl _ => (SetId d (metadata_name d), [])
       | inr e => (d, FromErr (Some e))
       end)
      (mkWorld (IPPools_Update p (poolOf d) (remote w)).2 (locked w)
         (trace w ++ [EvCall (CallUpdate (poolOf d))])).
Proof.
  intros Hp. unfold resourceIPPoolUpdate. rewrite Hp, setIPPoolAttributes_poolOf.
  unfold_ops.
  by destruct (IPPools_Update p (poolOf d) (remote w)) as [[r|e] rem].
Qed.

Lemma resourceIPPoolDelete_run d meta p w :
  GetCalicoConfiguration meta = inl p →
  resourceIPPoolDelete d meta w
  = Returned
      (d, FromErr (IPPools_Delete p (metadata_name d) (remote w)).1)
      (mkWorld (IPPools_Delete p (metadata_name d) (remote w)).2 (locked w)
         (trace w ++ [EvCall (CallDelete (metadata_name d))])).
Proof.
  intros Hp. unfold resourceIPPoolDelete. rewrite Hp. unfold_ops.
  by destruct (IPPools_Delete p (metadata_name d) (remote w)) as [[e|] rem].
Qed.

(** Without a client nothing is issued and nothing changes. *)
Lemma no_client_run d meta w e :
  GetCalicoConfiguration meta = inr e →
  resourceIPPoolCreate d meta w = Returned (d, FromErr (Some e)) w
  ∧ resourceIPPoolUpdate d meta w = Returned (d, FromErr (Some e)) w
  ∧ resourceIPPoolDelete d meta w = Returned (d, FromErr (Some e)) w.
Proof.
  intros He.
  unfold resourceIPPoolCreate, resourceIPPoolUpdate, resourceIPPoolDelete.
  by rewrite He.
Qed.

(** C5. With the client at hand, [resourceIPPoolCreate] builds a pool whose
    name, resource version, annotations, CIDR, block size, two modes and
    three flags are those of the local configuration, issues exactly one
    remote call, the Create of that pool, and, when the call succeeds,
    reports nothing and returns the resource data with the identifier equal
    to the name of the pool it built, which is the configured name, and
    every attribute as before; when the call fails, it reports the error and
    the resource data, the identifier included, are as before. Whenever the
    operation reports anything at all, the resource data are untouched. *)
Theorem resourceIPPoolCreate_spec d meta w :
  (∀ p, GetCalicoConfiguration meta = inl p →
     ∃ ippool w',
       setIPPoolAttributes d calicov3.zeroIPPool = (ippool, None)
       ∧ calicov3.Name ippool = metadata_name d
       ∧ calicov3.ResourceVersion ippool = metadata_resource_version d
       ∧ calicov3.Annotations ippool = metadata_annotations d
       ∧ calicov3.CIDR (calicov3.Spec ippool) = spec_cidr d
       ∧ calicov3.BlockSize (calicov3.Spec ippool) = spec_block_size d
       ∧ calicov3.IPIPMode_ (calicov3.Spec ippool) = getIPIPMode (spec_ipip_mode d)
       ∧ calicov3.VXLANMode_ (calicov3.Spec ippool)
         = getVXLANMode (spec_vxlan_mode d)
       ∧ calicov3.NATOutgoing (calicov3.Spec ippool) = spec_nat_outgoing d
       ∧ calicov3.Disabled (calicov3.Spec ippool) = spec_disabled d
       ∧ calicov3.DisableBGPExport (calicov3.Spec ippool)
         = spec_disable_bgp_export d
       ∧ trace w' = trace w ++ [EvCall (CallCreate ippool)]
       ∧ remote w' = (IPPools_Create p ippool (remote w)).2
       ∧ match (IPPools_Create p ippool (remote w)).1 with
         | inl _ =>
             ∃ d',
               resourceIPPoolCreate d meta w = Returned (d', []) w'
               ∧ Id d' = calicov3.Name ippool
               ∧ Id d' = metadata_name d
               ∧ d' = SetId d (calicov3.Name ippool)
               ∧ d'
                 = mkResourceData (metadata_name d)
                     (metadata_name d) (metadata_resource_version d)
                     (metadata_annotations d)
                     (spec_cidr d) (spec_block_size d)
                     (spec_ipip_mode d) (spec_vxlan_mode d)
                     (spec_nat_outgoing d) (spec_disabled d)
                     (spec_disable_bgp_export d)
         | inr e =>
             resourceIPPoolCreate d meta w = Returned (d, FromErr (Some e)) w'
         end)
  ∧ (∀ d' ds w',
       resourceIPPoolCreate d meta w = Returned (d', ds) w' → ds ≠ [] →
       d' = d ∧ Id d' = Id d).
Proof.
  split.
  - intros p Hp.
    exists (poolOf d),
      (mkWorld (IPPools_Create p (poolOf d) (remote w)).2 (locked w)
         (trace w ++ [EvCall (CallCreate (poolOf d))])).
    rewrite (resourceIPPoolCreate_run d meta p w Hp).
    split; [apply setIPPoolAttributes_poolOf |].
    do 10 (split; [reflexivity |]).
    split; [reflexivity |]. split; [reflexivity |].
    destruct (IPPools_Create p (poolOf d) (remote w)).1; [|reflexivity].
    exists (SetId d (metadata_name d)).
    split; [reflexivity |]. split; [reflexivity |]. split; [reflexivity |].
    split; reflexivity.
  - intros d' ds w' Hrun Hds.
    destruct (GetCalicoConfiguration meta) as [p|e] eqn:Hp.
    + rewrite (resourceIPPoolCreate_run d meta p w Hp) in Hrun.
      destruct (IPPools_Create p (poolOf d) (remote w)).1;
        injection Hrun as <- <- <-; done.
    + destruct (no_client_run d meta w e Hp) as (Hc & _ & _).
      rewrite Hc in Hrun. by injection Hrun as <- <- <-.
Qed.

(** C7. With the client at hand, [resourceIPPoolUpdate] builds the whole
    pool from the local configuration, the resource version read earlier
    included, issues exactly one remote call, the Update of that pool, and,
    when the call succeeds, sets the identifier to the pool's name; when it
    fails, it reports the error and leaves the resource data as before. *)
Theorem resourceIPPoolUpdate_spec d meta w :
  (∀ p, GetCalicoConfiguration meta = inl p →
     ∃ ippool w',
       setIPPoolAttributes d calicov3.zeroIPPool = (ippool, None)
       ∧ ippool
         = calicov3.mkIPPool (metadata_name d) (metadata_resource_version d)
             (metadata_annotations d)
             (calicov3.mkIPPoolSpec (spec_cidr d)
                (getVXLANMode (spec_vxlan_mode d))
                (getIPIPMode (spec_ipip_mode d))
                (spec_nat_outgoing d) (spec_disabled d)
                (spec_disable_bgp_export d) (spec_block_size d))
       ∧ calicov3.ResourceVersion ippool = metadata_resource_version d
       ∧ trace w' = trace w ++ [EvCall (CallUpdate ippool)]
       ∧ remote w' = (IPPools_Update p ippool (remote w)).2
       ∧ match (IPPools_Update p ippool (remote w)).1 with
         | inl _ =>
             resourceIPPoolUpdate d meta w
             = Returned (SetId d (calicov3.Name ippool), []) w'
             ∧ Id (SetId d (calicov3.Name ippool)) = metadata_name d
         | inr e =>
             resourceIPPoolUpdate d meta w = Returned (d, FromErr (Some e)) w'
         end)
  ∧ (∀ d' ds w',
       resourceIPPoolUpdate d meta w = Returned (d', ds) w' → ds ≠ [] →
       d' = d ∧ Id d' = Id d).
Proof.
  split.
  - intros p Hp. eexists (poolOf d), _.
    rewrite (resourceIPPoolUpdate_run d meta p w Hp).
    split; [apply setIPPoolAttributes_poolOf |].
    do 2 (split; [reflexivity |]).
    split; [|split];
      [| | destruct (IPPools_Update p (poolOf d) (remote w)).1;
           [split|]; reflexivity];
      reflexivity.
  - intros d' ds w' Hrun Hds.
    destruct (GetCalicoConfiguration meta) as [p|e] eqn:Hp.
    + rewrite (resourceIPPoolUpdate_run d meta p w Hp) in Hrun.
      destruct (IPPools_Update p (poolOf d) (remote w)).1;
        injection Hrun as <- <- <-; done.
    + destruct (no_client_run d meta w e Hp) as (_ & Hu & _).
      rewrite Hu in Hrun. by injection Hrun as <- <- <-.
Qed.

(** C6. With the client at hand, [resourceIPPoolDelete] issues exactly one
    remote call, the Delete of the configured name, with no Get before it;
    the diagnostics it returns are those of the call's error, unchanged
    (none when the call succeeds). The operation never writes to the
    resource data, so on an error the identifier is as it was. *)
Theorem resourceIPPoolDelete_spec d meta w :
  (∀ p, GetCalicoConfiguration meta = inl p →
     ∃ w',
       resourceIPPoolDelete d meta w
       = Returned (d, FromErr (IPPools_Delete p (metadata_name d) (remote w)).1) w'
       ∧ trace w' = trace w ++ [EvCall (CallDelete (metadata_name d))]
       ∧ calls (emitted w w') = [CallDelete (metadata_name d)]
       ∧ remote w' = (IPPools_Delete p (metadata_name d) (remote w)).2
       ∧ ∀ e, (IPPools_Delete p (metadata_name d) (remote w)).1 = Some e →
           FromErr (IPPools_Delete p (metadata_name d) (remote w)).1
           = [errorDiagnostic (Error e) EmptyString])
  ∧ (∀ d' ds w',
       resourceIPPoolDelete d meta w = Returned (d', ds) w' →
       d' = d ∧ Id d' = Id d).
Proof.
  split.
  - intros p Hp. eexists.
    rewrite (resourceIPPoolDelete_run d meta p w Hp).
    split; [reflexivity |]. split; [reflexivity |].
    split; [|split; [reflexivity |]].
    + unfold emitted. simpl. by rewrite drop_app_length.
    + by intros e ->.
  - intros d' ds w' Hrun.
    destruct (GetCalicoConfiguration meta) as [p|e] eqn:Hp.
    + rewrite (resourceIPPoolDelete_run d meta p w Hp) in Hrun.
      by injection Hrun as <- <- <-.
    + destruct (no_client_run d meta w e Hp) as (_ & _ & Hd).
      rewrite Hd in Hrun. by injection Hrun as <- <- <-.
Qed.

End Writes.

(** ** The lock, and what a write keeps of the server's reply *)

Section Locking.

Context {Remote : Type}.
Implicit Types (d : ResourceData) (meta : Meta Remote) (p : Clientset Remote).
Implicit Types (w : World Remote) (e : error) (r : calicov3.IPPool).

Lemma emitted_app w w' evs : trace w' = trace w ++ evs → emitted w w' = evs.
Proof. intros H. unfold emitted. rewrite H. apply drop_app_length. Qed.

Lemma emitted_nil w : emitted w w = [].
Proof. apply emitted_app. by rewrite app_nil_r. Qed.

Lemma getIPPool_blocked meta p name w :
  locked w = true → getIPPool meta p name w = Blocked w.
Proof. intros Hheld. unfold_ops. by rewrite Hheld. Qed.

Lemma writes_lockFree d meta w :
  lockFree resourceIPPoolCreate d meta w
  ∧ lockFree resourceIPPoolUpdate d meta w
  ∧ lockFree resourceIPPoolDelete d meta w.
Proof.
  unfold lockFree.
  destruct (GetCalicoConfiguration meta) as [p|e] eqn:Hp.
  - rewrite (resourceIPPoolCreate_run d meta p w Hp),
      (resourceIPPoolUpdate_run d meta p w Hp),
      (resourceIPPoolDelete_run d meta p w Hp).
    repeat split; eexists _, _; (split; [reflexivity |]);
      (split; [by erewrite emitted_app by reflexivity | reflexivity]).
  - destruct (no_client_run d meta w e Hp) as (-> & -> & ->).
    repeat split; eexists _, _; (split; [reflexivity |]);
      by rewrite emitted_nil.
Qed.

(** C9. [getIPPool] takes the lock, issues the Get and releases the lock,
    in this order and whether the Get succeeds or fails; while the lock is
    held elsewhere it waits and issues nothing. Hence every Get that
    [resourceIPPoolExists] and [resourceIPPoolRead] issue happens with the
    lock held, and both leave the lock free. Create, Update and Delete
    return whatever the state of the lock, with no lock event among the
    events they add and the lock left as they found it. *)
Theorem reads_hold_the_lock d meta p name w :
  (locked w = false →
     getIPPool meta p name w
     = Returned (IPPools_Get p name (remote w)).1
         (mkWorld (IPPools_Get p name (remote w)).2 false
            (trace w ++ [EvLock; EvCall (CallGet name); EvUnlock])))
  ∧ (locked w = true → getIPPool meta p name w = Blocked w)
  ∧ (∀ x w', locked w = false →
       resourceIPPoolExists d meta w = Returned x w' →
       readsUnderLock false (emitted w w') = true ∧ locked w' = false)
  ∧ (∀ x w', locked w = false →
       resourceIPPoolRead d meta w = Returned x w' →
       readsUnderLock false (emitted w w') = true ∧ locked w' = false)
  ∧ lockFree resourceIPPoolCreate d meta w
  ∧ lockFree resourceIPPoolUpdate d meta w
  ∧ lockFree resourceIPPoolDelete d meta w.
Proof.
  split; [apply getIPPool_run |]. split; [apply getIPPool_blocked |].
  split; [|split; [|apply writes_lockFree]].
  - intros x w' Hfree Hrun.
    destruct (GetCalicoConfiguration meta) as [q|e] eqn:Hq.
    + rewrite (resourceIPPoolExists_run d meta q w) in Hrun by done.
      injection Hrun as _ <-. by erewrite emitted_app by reflexivity.
    + unfold resourceIPPoolExists in Hrun. rewrite Hq in Hrun.
      injection Hrun as _ <-. by rewrite emitted_nil.
  - intros x w' Hfree Hrun.
    destruct (GetCalicoConfiguration meta) as [q|e] eqn:Hq.
    + rewrite (resourceIPPoolRead_run d meta q w) in Hrun by done.
      simpl in Hrun.
      destruct (IPPools_Get q (metadata_name d) (remote w)).1;
        [destruct (IPPools_Get q (metadata_name d) _).1 |];
        injection Hrun as _ <-; by erewrite emitted_app by reflexivity.
    + unfold resourceIPPoolRead, resourceIPPoolExists, bind, ret in Hrun.
      rewrite Hq in Hrun. injection Hrun as _ <-. by rewrite emitted_nil.
Qed.

(** C10. When the remote Create or Update succeeds, the object in the
    reply plays no part in the result: whatever it is, the operation
    returns the resource data it was given with only the identifier
    changed, to the name of the local configuration. In particular the
    stored resource version and all other attributes are the old ones. A
    later successful [resourceIPPoolRead] is what overwrites them, from the
    object it fetches. *)
Theorem write_reply_discarded d meta p w reply :
  GetCalicoConfiguration meta = inl p →
  ((IPPools_Create p (setIPPoolAttributes d calicov3.zeroIPPool).1 (remote w)).1
     = inl reply →
   ∃ w', resourceIPPoolCreate d meta w
         = Returned (SetId d (metadata_name d), []) w')
  ∧ ((IPPools_Update p (setIPPoolAttributes d calicov3.zeroIPPool).1 (remote w)).1
       = inl reply →
     ∃ w', resourceIPPoolUpdate d meta w
           = Returned (SetId d (metadata_name d), []) w')
  ∧ SetId d (metadata_name d)
    = mkResourceData (metadata_name d)
        (metadata_name d) (metadata_resource_version d) (metadata_annotations d)
        (spec_cidr d) (spec_block_size d) (spec_ipip_mode d) (spec_vxlan_mode d)
        (spec_nat_outgoing d) (spec_disabled d) (spec_disable_bgp_export d)
  ∧ (∀ r, locked w = false →
       (∃ r1, (IPPools_Get p (metadata_name d) (remote w)).1 = inl r1) →
       (IPPools_Get p (metadata_name d)
          (IPPools_Get p (metadata_name d) (remote w)).2).1 = inl r →
       ∃ d' w',
         resourceIPPoolRead d meta w = Returned (d', []) w'
         ∧ Id d' = calicov3.Name r
         ∧ metadata_name d' = calicov3.Name r
         ∧ metadata_resource_version d' = calicov3.ResourceVersion r
         ∧ metadata_annotations d' = calicov3.Annotations r
         ∧ spec_cidr d' = calicov3.CIDR (calicov3.Spec r)
         ∧ spec_block_size d' = calicov3.BlockSize (calicov3.Spec r)
         ∧ spec_ipip_mode d' = calicov3.IPIPMode_ (calicov3.Spec r)
         ∧ spec_vxlan_mode d' = calicov3.VXLANMode_ (calicov3.Spec r)
         ∧ spec_nat_outgoing d' = calicov3.NATOutgoing (calicov3.Spec r)
         ∧ spec_disabled d' = calicov3.Disabled (calicov3.Spec r)
         ∧ spec_disable_bgp_export d'
           = calicov3.DisableBGPExport (calicov3.Spec r)).
Proof.
  intros Hp. rewrite setIPPoolAttributes_poolOf. simpl.
  split; [|split; [|split; [reflexivity |]]].
  - intros Hok. rewrite (resourceIPPoolCreate_run d meta p w Hp), Hok. eauto.
  - intros Hok. rewrite (resourceIPPoolUpdate_run d meta p w Hp), Hok. eauto.
  - intros r Hfree [r1 H1] H2.
    rewrite (resourceIPPoolRead_run d meta p w) by done. simpl.
    rewrite H1, H2. eexists _, _. split; [reflexivity |].
    repeat split.
Qed.

End Locking.

(** ** The two modes in the schema *)

Lemma HasError_elem (x : Diagnostic) (ds : Diagnostics) :
  x ∈ ds → severity x = SeverityError → HasError ds = true.
Proof.
  intros Hx Hsev. unfold HasError. apply existsb_exists.
  exists x. split; [by apply list_elem_of_In | by rewrite Hsev].
Qed.

Section SchemaProperties.

Context {lib : Library}.

Lemma StringInSlice_modes (v k : string) :
  (v ∈ modeNames → StringInSlice modeNames false (VString v) k = Some ([], []))
  ∧ (v ∉ modeNames →
       ∃ e, StringInSlice modeNames false (VString v) k = Some ([], [e])).
Proof.
  unfold StringInSlice, modeNames. simpl.
  rewrite !orb_false_r.
  destruct (String.eqb_spec v "Always") as [->|H1].
  { split; [done |]. intros Hout. destruct Hout. apply list_elem_of_here. }
  destruct (String.eqb_spec v "CrossSubnet") as [->|H2].
  { split; [done |]. intros Hout. destruct Hout.
    apply list_elem_of_further, list_elem_of_here. }
  destruct (String.eqb_spec v "Never") as [->|H3].
  { split; [done |]. intros Hout. destruct Hout.
    do 2 apply list_elem_of_further. apply list_elem_of_here. }
  simpl. split; [|eauto].
  intros Hin. repeat (apply elem_of_cons in Hin as [->|Hin]; [done |]).
  by apply elem_of_nil in Hin.
Qed.

(** An attribute's validation returns as soon as its [ValidateFunc], if it
    has one, returns on the known value written for it. *)
Lemma validateAttribute_is_Some (k : string) (s : Schema) (c : ResourceConfig) :
  (∀ f raw, ValidateFunc s = Some f → c !! k = Some raw →
     isWhollyKnown raw = true → is_Some (f raw k)) →
  is_Some (validateAttribute k s c).
Proof.
  intros Hf. unfold validateAttribute.
  destruct (c !! k) as [raw|] eqn:Hraw; [|eauto].
  destruct (negb (Required s) && negb (Optional s)); [eauto |].
  destruct (isWhollyKnown raw) eqn:Hknown; simpl; [|eauto].
  destruct (validateConflictingAttributes k s c); [eauto |].
  unfold validateType. destruct (ValidateFunc s) as [f|] eqn:Hvf; [|eauto].
  destruct (Hf f raw eq_refl eq_refl Hknown) as [[ws es] ->]. eauto.
Qed.

Lemma validateObject_is_Some prefix fields (c : ResourceConfig) :
  (∀ k s, (k, s) ∈ fields → is_Some (validateAttribute (prefix +:+ "." +:+ k) s c)) →
  is_Some (validateObject prefix fields c).
Proof.
  induction fields as [|[k s] fields IH]; intros Hall; simpl; [eauto |].
  destruct (Hall k s) as [ds ->]; [apply list_elem_of_here |].
  destruct IH as [ds' ->]; [|eauto].
  intros k' s' Hk'. apply Hall. by apply list_elem_of_further.
Qed.

Lemma validateObject_elem prefix fields (c : ResourceConfig) ds k s ds0 x :
  validateObject prefix fields c = Some ds →
  (k, s) ∈ fields →
  validateAttribute (prefix +:+ "." +:+ k) s c = Some ds0 →
  x ∈ ds0 → x ∈ ds.
Proof.
  revert ds. induction fields as [|[k' s'] fields IH]; intros ds Hrun Hk Hone Hx.
  - by apply elem_of_nil in Hk.
  - simpl in Hrun.
    destruct (validateAttribute (prefix +:+ "." +:+ k') s' c) as [d1|] eqn:H1;
      [|discriminate].
    destruct (validateObject prefix fields c) as [d2|] eqn:H2; [|discriminate].
    injection Hrun as <-. apply elem_of_app.
    apply elem_of_cons in Hk as [Heq|Hk].
    + injection Heq as -> ->. left. rewrite H1 in Hone. by injection Hone as ->.
    + right. by apply (IH d2).
Qed.

Lemma Validate_spec_elem (c : ResourceConfig) ds k s ds0 x :
  Validate c = Some ds →
  (k, s) ∈ specSchema →
  validateAttribute ("spec.0." +:+ k) s c = Some ds0 →
  x ∈ ds0 → x ∈ ds.
Proof.
  unfold Validate, resourceCalicoIPPoolSchemaV3.
  cbn [validateBlocks Elem]. intros Hrun Hk Hone Hx.
  destruct (validateObject ("metadata" +:+ ".0") _ c) as [d1|]; [|discriminate].
  destruct (validateObject ("spec" +:+ ".0") specSchema c) as [d2|] eqn:H2;
    [|discriminate].
  injection Hrun as <-. rewrite app_nil_r. apply elem_of_app. right.
  by apply (validateObject_elem ("spec" +:+ ".0") specSchema c d2 k s ds0 x).
Qed.

Lemma ipip_mode_conflict (c : ResourceConfig) raw raw' s :
  schemaLookup "ipip_mode" specSchema = Some s →
  c !! "spec.0.ipip_mode" = Some raw → isWhollyKnown raw = true →
  c !! "spec.0.vxlan_mode" = Some raw' → isWhollyKnown raw' = true →
  validateAttribute "spec.0.ipip_mode" s c
  = Some [conflictDiagnostic "spec.0.ipip_mode" "spec.0.vxlan_mode"].
Proof.
  intros Hs Hraw Hk Hraw' Hk'. injection Hs as <-.
  unfold validateAttribute. rewrite Hraw.
  cbn [Required Optional negb andb]. rewrite Hk.
  cbn [negb validateConflictingAttributes ConflictsWith
       validateConflictingAttributesLoop].
  rewrite Hraw'. by destruct raw'.
Qed.

Lemma StringInSlice_is_Some valid ignoreCase raw k :
  is_Some (StringInSlice valid ignoreCase raw k).
Proof.
  unfold StringInSlice. destruct raw; eauto.
  destruct (existsb _ valid); eauto.
Qed.

Lemma Validate_is_Some (c : ResourceConfig) :
  (∀ v, c !! "metadata.0.annotations" = Some v →
     v = VUnknown ∨ ∃ m, v = VMap m) →
  is_Some (Validate c).
Proof.
  intros Hann.
  unfold Validate, resourceCalicoIPPoolSchemaV3.
  cbn [validateBlocks Elem].
  destruct (validateObject_is_Some ("metadata" +:+ ".0")
              metadataSchema c)
    as [d1 ->].
  { intros k s Hk. apply validateAttribute_is_Some. intros f raw Hf Hraw Hknown.
    unfold metadataSchema in Hk.
    repeat (apply elem_of_cons in Hk as [Heq|Hk];
            [injection Heq as -> ->; try discriminate Hf |]);
      [|by apply elem_of_nil in Hk].
    injection Hf as <-.
    destruct (Hann raw Hraw) as [->|[m ->]]; [discriminate | simpl; eauto]. }
  destruct (validateObject_is_Some ("spec" +:+ ".0") specSchema c) as [d2 ->];
    [|eauto].
  intros k s Hk. apply validateAttribute_is_Some. intros f raw Hf Hraw Hknown.
  unfold specSchema in Hk.
  repeat (apply elem_of_cons in Hk as [Heq|Hk];
          [injection Heq as -> ->; try discriminate Hf;
           try (injection Hf as <-; apply StringInSlice_is_Some) |]).
  by apply elem_of_nil in Hk.
Qed.

(** C8. The declared schema gives [ipip_mode] and [vxlan_mode] the default
    Never, lists each as conflicting with the other, and validates each
    with [StringInSlice] over Always, CrossSubnet and Never, which accepts
    exactly these three strings. A configuration that writes both
    attributes with values other than Never (indeed with any known values)
    is rejected by the SDK's validation of the configuration: whenever
    that validation returns, it reports an error, and it does return, with
    the conflict among its diagnostics, when the annotations are absent,
    unknown or a map. The validation is a function of the configuration
    alone; it has no access to the remote API, so no remote call precedes
    the rejection. *)
Theorem modes_conflict_rejected (c : ResourceConfig) (a b : string) :
  (∃ ipip vxlan,
     schemaLookup "spec" resourceCalicoIPPoolSchemaV3
     = Some (mkSchema TypeList false true false false None 1 None []
               (ElemResource specSchema))
     ∧ schemaLookup "ipip_mode" specSchema = Some ipip
     ∧ schemaLookup "vxlan_mode" specSchema = Some vxlan
     ∧ ConflictsWith ipip = ["spec.0.vxlan_mode"]
     ∧ ConflictsWith vxlan = ["spec.0.ipip_mode"]
     ∧ ValidateFunc ipip
       = Some (StringInSlice ["Always"; "CrossSubnet"; "Never"] false)
     ∧ ValidateFunc vxlan
       = Some (StringInSlice ["Always"; "CrossSubnet"; "Never"] false)
     ∧ Default ipip = Some (VString "Never")
     ∧ Default vxlan = Some (VString "Never"))
  ∧ (∀ v k,
       (v ∈ ["Always"; "CrossSubnet"; "Never"] →
          StringInSlice ["Always"; "CrossSubnet"; "Never"] false (VString v) k
          = Some ([], []))
       ∧ (v ∉ ["Always"; "CrossSubnet"; "Never"] →
            ∃ e, StringInSlice ["Always"; "CrossSubnet"; "Never"] false
                   (VString v) k = Some ([], [e])))
  ∧ (c !! "spec.0.ipip_mode" = Some (VString a) →
     c !! "spec.0.vxlan_mode" = Some (VString b) →
     a ≠ "Never" → b ≠ "Never" →
     (∀ ds, Validate c = Some ds → HasError ds = true)
     ∧ ((∀ v, c !! "metadata.0.annotations" = Some v →
           v = VUnknown ∨ ∃ m, v = VMap m) →
        ∃ ds, Validate c = Some ds
              ∧ conflictDiagnostic "spec.0.ipip_mode" "spec.0.vxlan_mode" ∈ ds
              ∧ HasError ds = true)).
Proof.
  split; [|split].
  - eexists _, _. split; [reflexivity |].
    split; [reflexivity |]. split; [reflexivity |].
    repeat split; reflexivity.
  - intros v k. apply StringInSlice_modes.
  - intros Ha Hb _ _.
    assert (Hin : ∀ ds, Validate c = Some ds →
              conflictDiagnostic "spec.0.ipip_mode" "spec.0.vxlan_mode" ∈ ds).
    { intros ds Hrun.
      eapply (Validate_spec_elem c ds "ipip_mode"); [exact Hrun | | |].
      - unfold specSchema.
        apply list_elem_of_further, list_elem_of_further, list_elem_of_here.
      - by apply (ipip_mode_conflict c (VString a) (VString b)).
      - apply list_elem_of_here. }
    split.
    + intros ds Hrun. by apply (HasError_elem _ ds (Hin ds Hrun)).
    + intros Hann. destruct (Validate_is_Some c Hann) as [ds Hrun].
      exists ds. split; [done |]. split; [by apply Hin |].
      by apply (HasError_elem _ ds (Hin ds Hrun)).
Qed.

End SchemaProperties.

(** ** The theorems at work on the server in memory *)

Lemma resourceIPPoolExists_result_witness :
  (∃ w', resourceIPPoolExists fake.poolA fake.meta fake.worldWithA
         = Returned (true, None) w')
  ∧ (∃ w', resourceIPPoolExists fake.poolA fake.meta fake.emptyWorld
           = Returned (false, Some (fake.notFound "pool-a")) w')
  ∧ (∃ w', resourceIPPoolExists fake.poolA fake.cutOff fake.emptyWorld
           = Returned (false, Some fake.refused) w')
  ∧ resourceIPPoolExists fake.poolA fake.unconfigured fake.emptyWorld
    = Returned (false, Some (errorString "no configuration has been provided"))
        fake.emptyWorld
  ∧ ((false = true ∧ Some fake.refused = None
      ∧ ∃ p r, GetCalicoConfiguration fake.cutOff = inl p
               ∧ (IPPools_Get p (metadata_name fake.poolA)
                    (remote fake.emptyWorld)).1 = inl r)
     ∨ (false = false ∧ ∃ e, Some fake.refused = Some e)).
Proof.
  split; [|split; [|split; [|split]]].
  - destruct (resourceIPPoolExists_result fake.poolA fake.meta fake.worldWithA)
      as (H & _).
    apply (H fake.clientset (fake.withVersion (poolOf fake.poolA) "1"));
      reflexivity.
  - destruct (resourceIPPoolExists_result fake.poolA fake.meta fake.emptyWorld)
      as (_ & H & _).
    apply (H fake.clientset); reflexivity.
  - destruct (resourceIPPoolExists_result fake.poolA fake.cutOff fake.emptyWorld)
      as (_ & H & _).
    apply (H fake.unreachable); reflexivity.
  - destruct (resourceIPPoolExists_result fake.poolA fake.unconfigured
                fake.emptyWorld) as (_ & _ & H & _).
    apply H. reflexivity.
  - destruct (resourceIPPoolExists_result fake.poolA fake.cutOff fake.emptyWorld)
      as (_ & _ & _ & H).
    apply (H false (Some fake.refused)
             (mkWorld ∅ false [EvLock; EvCall (CallGet "pool-a"); EvUnlock])).
    reflexivity.
Defined.

Lemma resourceIPPoolCreate_spec_witness :
  (∃ ippool w' d',
     calicov3.Name ippool = "pool-a"
     ∧ calicov3.IPIPMode_ (calicov3.Spec ippool) = calicov3.IPIPModeAlways
     ∧ trace w' = [EvCall (CallCreate ippool)]
     ∧ resourceIPPoolCreate fake.newPoolA fake.meta fake.emptyWorld
       = Returned (d', []) w'
     ∧ Id fake.newPoolA = EmptyString
     ∧ Id d' = "pool-a")
  ∧ (resourceIPPoolCreate fake.newPoolA fake.meta fake.worldWithA
     = Returned
         (fake.newPoolA, FromErr (Some (fake.alreadyExists "pool-a")))
         (mkWorld (remote fake.worldWithA) false
            [EvCall (CallCreate (poolOf fake.newPoolA))])
     ∧ FromErr (Some (fake.alreadyExists "pool-a")) ≠ []
     ∧ Id fake.newPoolA = Id fake.newPoolA).
Proof.
  destruct (resourceIPPoolCreate_spec fake.newPoolA fake.meta fake.emptyWorld)
    as [Hok _].
  destruct (resourceIPPoolCreate_spec fake.newPoolA fake.meta fake.worldWithA)
    as [_ Hfail].
  split.
  - destruct (Hok fake.clientset eq_refl)
      as (ippool & w' & Hset & Hname & _ & _ & _ & _ & Hipip & _ & _ & _ & _
          & Htrace & _ & Hrun).
    rewrite setIPPoolAttributes_poolOf in Hset. injection Hset as <-.
    destruct Hrun as (d' & Hrun & _ & Hid & _).
    exists (poolOf fake.newPoolA), w', d'.
    split; [exact Hname |]. split; [exact Hipip |]. split; [exact Htrace |].
    split; [exact Hrun |]. split; [reflexivity | exact Hid].
  - assert (Hrun : resourceIPPoolCreate fake.newPoolA fake.meta fake.worldWithA
                   = Returned
                       (fake.newPoolA, FromErr (Some (fake.alreadyExists "pool-a")))
                       (mkWorld (remote fake.worldWithA) false
                          [EvCall (CallCreate (poolOf fake.newPoolA))]))
      by reflexivity.
    split; [exact Hrun |]. split; [discriminate |].
    destruct (Hfail _ _ _ Hrun) as [_ Hid]; [discriminate | exact Hid].
Defined.

Lemma resourceIPPoolUpdate_spec_witness :
  (∃ ippool w',
     calicov3.ResourceVersion ippool = "1"
     ∧ trace w' = [EvCall (CallUpdate ippool)]
     ∧ resourceIPPoolUpdate fake.readPoolA fake.meta fake.worldWithA
       = Returned (SetId fake.readPoolA "pool-a", []) w')
  ∧ (resourceIPPoolUpdate fake.poolA fake.meta fake.worldWithA
     = Returned
         (fake.poolA, FromErr (Some (fake.conflict "pool-a")))
         (mkWorld (remote fake.worldWithA) false
            [EvCall (CallUpdate (poolOf fake.poolA))])
     ∧ Id fake.poolA = Id fake.poolA).
Proof.
  split.
  - destruct (resourceIPPoolUpdate_spec fake.readPoolA fake.meta fake.worldWithA)
      as [Hok _].
    destruct (Hok fake.clientset eq_refl)
      as (ippool & w' & _ & Hpool & Hver & Htrace & _ & Hrun).
    subst ippool.
    eexists _, w'. split; [exact Hver |]. split; [exact Htrace |].
    exact (proj1 Hrun).
  - destruct (resourceIPPoolUpdate_spec fake.poolA fake.meta fake.worldWithA)
      as [_ Hfail].
    assert (Hrun : resourceIPPoolUpdate fake.poolA fake.meta fake.worldWithA
                   = Returned
                       (fake.poolA, FromErr (Some (fake.conflict "pool-a")))
                       (mkWorld (remote fake.worldWithA) false
                          [EvCall (CallUpdate (poolOf fake.poolA))]))
      by reflexivity.
    split; [exact Hrun |].
    destruct (Hfail _ _ _ Hrun) as [_ Hid]; [discriminate | exact Hid].
Defined.

Lemma resourceIPPoolDelete_spec_witness :
  (∃ w',
     resourceIPPoolDelete fake.poolA fake.meta fake.emptyWorld
     = Returned (fake.poolA, FromErr (Some (fake.notFound "pool-a"))) w'
     ∧ calls (emitted fake.emptyWorld w') = [CallDelete "pool-a"])
  ∧ FromErr (Some (fake.notFound "pool-a"))
    = [errorDiagnostic (Error (fake.notFound "pool-a")) EmptyString]
  ∧ Id fake.poolA = "pool-a".
Proof.
  destruct (resourceIPPoolDelete_spec fake.poolA fake.meta fake.emptyWorld)
    as [Hok Hsame].
  destruct (Hok fake.clientset eq_refl) as (w' & Hrun & _ & Hcalls & _ & Herr).
  split; [exists w'; split; [exact Hrun | exact Hcalls] |].
  split; [exact (Herr (fake.notFound "pool-a") eq_refl) |].
  destruct (Hsame _ _ _ Hrun) as [_ Hid]. exact Hid.
Defined.

Lemma reads_hold_the_lock_witness :
  getIPPool fake.meta fake.clientset "pool-a" fake.emptyWorld
  = Returned (inr (fake.notFound "pool-a"))
      (mkWorld ∅ false [EvLock; EvCall (CallGet "pool-a"); EvUnlock])
  ∧ getIPPool fake.meta fake.clientset "pool-a" fake.worldWithA
    = Returned (inl (fake.withVersion (poolOf fake.poolA) "1"))
        (mkWorld (remote fake.worldWithA) false
           [EvLock; EvCall (CallGet "pool-a"); EvUnlock])
  ∧ getIPPool fake.meta fake.clientset "pool-a" fake.worldLocked
    = Blocked fake.worldLocked
  ∧ readsUnderLock false
      (emitted fake.worldWithA
         (mkWorld (remote fake.worldWithA) false
            [EvLock; EvCall (CallGet "pool-a"); EvUnlock;
             EvLock; EvCall (CallGet "pool-a"); EvUnlock])) = true
  ∧ readsUnderLock false
      (emitted fake.emptyWorld
         (mkWorld ∅ false [EvLock; EvCall (CallGet "pool-a"); EvUnlock])) = true
  ∧ lockFree resourceIPPoolCreate fake.newPoolA fake.meta fake.worldLocked.
Proof.
  split; [|split; [|split; [|split; [|split]]]].
  - destruct (reads_hold_the_lock fake.poolA fake.meta fake.clientset "pool-a"
                fake.emptyWorld) as (H & _).
    exact (H eq_refl).
  - destruct (reads_hold_the_lock fake.poolA fake.meta fake.clientset "pool-a"
                fake.worldWithA) as (H & _).
    exact (H eq_refl).
  - destruct (reads_hold_the_lock fake.poolA fake.meta fake.clientset "pool-a"
                fake.worldLocked) as (_ & H & _).
    exact (H eq_refl).
  - destruct (reads_hold_the_lock fake.poolA fake.meta fake.clientset "pool-a"
                fake.worldWithA) as (_ & _ & _ & H & _).
    refine (proj1 (H (fst (setResourceAttributes fake.poolA
                             (fake.withVersion (poolOf fake.poolA) "1")), [])
                     _ eq_refl _)).
    reflexivity.
  - destruct (reads_hold_the_lock fake.poolA fake.meta fake.clientset "pool-a"
                fake.emptyWorld) as (_ & _ & H & _).
    refine (proj1 (H (false, Some (fake.notFound "pool-a")) _ eq_refl _)).
    reflexivity.
  - destruct (reads_hold_the_lock fake.newPoolA fake.meta fake.clientset "pool-a"
                fake.worldLocked) as (_ & _ & _ & _ & H & _).
    exact H.
Defined.

Lemma write_reply_discarded_witness :
  (∃ w', resourceIPPoolCreate fake.newPoolA fake.meta fake.emptyWorld
         = Returned (SetId fake.newPoolA "pool-a", []) w')
  ∧ calicov3.ResourceVersion (fake.withVersion (poolOf fake.newPoolA) "1") = "1"
  ∧ metadata_resource_version (SetId fake.newPoolA "pool-a") = EmptyString
  ∧ (∃ w', resourceIPPoolUpdate fake.readPoolA fake.meta fake.worldWithA
           = Returned (SetId fake.readPoolA "pool-a", []) w')
  ∧ metadata_resource_version (SetId fake.readPoolA "pool-a") = "1"
  ∧ (∃ d' w', resourceIPPoolRead fake.poolA fake.meta fake.worldWithA
              = Returned (d', []) w'
              ∧ metadata_resource_version d' = "1").
Proof.
  destruct (write_reply_discarded fake.newPoolA fake.meta fake.clientset
              fake.emptyWorld (fake.withVersion (poolOf fake.newPoolA) "1")
              eq_refl) as (Hcreate & _ & _ & _).
  destruct (write_reply_discarded fake.readPoolA fake.meta fake.clientset
              fake.worldWithA (fake.withVersion (poolOf fake.readPoolA) "11")
              eq_refl) as (_ & Hupdate & _ & _).
  destruct (write_reply_discarded fake.poolA fake.meta fake.clientset
              fake.worldWithA (fake.withVersion (poolOf fake.poolA) "1")
              eq_refl) as (_ & _ & _ & Hread).
  split; [apply Hcreate; reflexivity |].
  split; [reflexivity |]. split; [reflexivity |].
  split; [apply Hupdate; reflexivity |].
  split; [reflexivity |].
  destruct (Hread (fake.withVersion (poolOf fake.poolA) "1") eq_refl)
    as (d' & w' & Hrun & _ & _ & Hver & _).
  - eexists. reflexivity.
  - reflexivity.
  - exists d', w'. split; [exact Hrun | exact Hver].
Defined.

Lemma modes_conflict_rejected_witness :
  (fake.bothModes !! "spec.0.ipip_mode" = Some (VString "Always")
   ∧ fake.bothModes !! "spec.0.vxlan_mode" = Some (VString "CrossSubnet")
   ∧ "Always" ≠ "Never" ∧ "CrossSubnet" ≠ "Never")
  ∧ (∃ ds,
       Validate (lib := fake.library) fake.bothModes = Some ds
       ∧ conflictDiagnostic (lib := fake.library)
           "spec.0.ipip_mode" "spec.0.vxlan_mode" ∈ ds
       ∧ HasError ds = true)
  ∧ StringInSlice (lib := fake.library) ["Always"; "CrossSubnet"; "Never"] false
      (VString "CrossSubnet") "spec.0.ipip_mode" = Some ([], [])
  ∧ (∃ e, StringInSlice (lib := fake.library) ["Always"; "CrossSubnet"; "Never"]
            false (VString "always") "spec.0.ipip_mode" = Some ([], [e])).
Proof.
  split; [repeat split; (reflexivity || discriminate) |].
  destruct (modes_conflict_rejected (lib := fake.library) fake.bothModes
              "Always" "CrossSubnet")
    as (_ & Hset & H).
  split; [|split].
  - destruct H as [Hall H];
      [reflexivity | reflexivity | discriminate | discriminate |].
    destruct H as (ds & Hrun & Hin & _).
    { intros v Hv. vm_compute in Hv. discriminate Hv. }
    exists ds. split; [exact Hrun |]. split; [exact Hin |].
    exact (Hall ds Hrun).
  - apply (Hset "CrossSubnet" "spec.0.ipip_mode").
    apply list_elem_of_further, list_elem_of_here.
  - apply (Hset "always" "spec.0.ipip_mode").
    intros Hin. repeat (apply elem_of_cons in Hin as [Heq|Hin]; [discriminate |]).
    by apply elem_of_nil in Hin.
Defined.

(** * Further properties of the resource *)

(** ** Modes and the two directions of the field mapping *)

Lemma getIPIPMode_fixed (mode : string) :
  getIPIPMode mode = mode ↔ mode ∈ modeNames.
Proof.
  unfold getIPIPMode, modeNames.
  destruct (String.eqb_spec mode "Always") as [->|H1].
  { split; [intros _; apply list_elem_of_here | done]. }
  destruct (String.eqb_spec mode "CrossSubnet") as [->|H2].
  { split; [intros _; apply list_elem_of_further, list_elem_of_here | done]. }
  split.
  - intros <-. do 2 apply list_elem_of_further. apply list_elem_of_here.
  - intros Hin. repeat (apply elem_of_cons in Hin as [->|Hin]; [done |]).
    by apply elem_of_nil in Hin.
Qed.

Lemma getVXLANMode_getIPIPMode (mode : string) : getVXLANMode mode = getIPIPMode mode.
Proof. reflexivity. Qed.

Lemma getIPIPMode_modeNames (mode : string) : getIPIPMode mode ∈ modeNames.
Proof.
  unfold getIPIPMode, modeNames.
  destruct (String.eqb mode "Always"); [apply list_elem_of_here |].
  destruct (String.eqb mode "CrossSubnet");
    [apply list_elem_of_further, list_elem_of_here |].
  do 2 apply list_elem_of_further. apply list_elem_of_here.
Qed.

(** X1. The translation of a mode is a normalisation: translating twice is
    translating once, and the strings it leaves as they are are exactly
    Always, CrossSubnet and Never, the strings the schema accepts for the two
    attributes; every other string, such as one that differs in case only,
    is changed (to Never). Both translations agree on every string. *)
Theorem mode_normalisation (mode : string) :
  getIPIPMode (getIPIPMode mode) = getIPIPMode mode
  ∧ getVXLANMode (getVXLANMode mode) = getVXLANMode mode
  ∧ (getIPIPMode mode = mode ↔ mode ∈ modeNames)
  ∧ (getVXLANMode mode = mode ↔ mode ∈ modeNames)
  ∧ (mode ∉ modeNames →
       getIPIPMode mode = calicov3.IPIPModeNever ∧ getIPIPMode mode ≠ mode)
  ∧ getVXLANMode mode = getIPIPMode mode.
Proof.
  split; [apply getIPIPMode_fixed, getIPIPMode_modeNames |].
  split; [rewrite !getVXLANMode_getIPIPMode;
          apply getIPIPMode_fixed, getIPIPMode_modeNames |].
  split; [apply getIPIPMode_fixed |]. split; [apply getIPIPMode_fixed |].
  split; [|reflexivity].
  intros Hout. split.
  - unfold getIPIPMode.
    destruct (String.eqb_spec mode "Always") as [->|_].
    { destruct Hout. apply list_elem_of_here. }
    destruct (String.eqb_spec mode "CrossSubnet") as [->|_]; [|done].
    destruct Hout. apply list_elem_of_further, list_elem_of_here.
  - intros Hfix. by apply Hout, getIPIPMode_fixed.
Qed.

Lemma mode_normalisation_witness :
  ("always" ∉ modeNames)
  ∧ getIPIPMode "always" = calicov3.IPIPModeNever
  ∧ getIPIPMode "always" ≠ "always"
  ∧ getIPIPMode "CrossSubnet" = "CrossSubnet".
Proof.
  assert (Hout : "always" ∉ modeNames).
  { intros Hin. unfold modeNames in Hin.
    repeat (apply elem_of_cons in Hin as [Heq|Hin]; [discriminate |]).
    by apply elem_of_nil in Hin. }
  destruct (mode_normalisation "always") as (_ & _ & _ & _ & H & _).
  destruct (mode_normalisation "CrossSubnet") as (_ & _ & [_ Hfix] & _).
  split; [exact Hout |]. destruct (H Hout) as [HNever Hne].
  split; [exact HNever |]. split; [exact Hne |].
  apply Hfix. apply list_elem_of_further, list_elem_of_here.
Defined.

(** What [setResourceAttributes] writes does not depend on the data it is
    given, and it reports no error. *)
Lemma setResourceAttributes_value (d : ResourceData) (r : calicov3.IPPool) :
  setResourceAttributes d r
  = (mkResourceData (calicov3.Name r)
       (calicov3.Name r) (calicov3.ResourceVersion r) (calicov3.Annotations r)
       (calicov3.CIDR (calicov3.Spec r)) (calicov3.BlockSize (calicov3.Spec r))
       (calicov3.IPIPMode_ (calicov3.Spec r)) (calicov3.VXLANMode_ (calicov3.Spec r))
       (calicov3.NATOutgoing (calicov3.Spec r)) (calicov3.Disabled (calicov3.Spec r))
       (calicov3.DisableBGPExport (calicov3.Spec r)),
     None).
Proof. reflexivity. Qed.

(** X2. Reading then building, on the attributes the resource maps. The
    object that [setIPPoolAttributes] builds from the data
    [setResourceAttributes] wrote for a pool [r] has the name, resource
    version, annotations, CIDR, block size and three flags of [r], whatever
    the data held before, and the two modes of [r] in translated form: a mode
    of [r] comes back as it was exactly when it is Always, CrossSubnet or
    Never, and a pool whose mode is, say, the empty string is sent back with
    Never. The object is built from the zero pool: nothing of [r] beyond
    these ten attributes is carried over. *)
Theorem read_then_build (d : ResourceData) (r : calicov3.IPPool) :
  ∃ built,
    setIPPoolAttributes (setResourceAttributes d r).1 calicov3.zeroIPPool
    = (built, None)
    ∧ calicov3.Name built = calicov3.Name r
    ∧ calicov3.ResourceVersion built = calicov3.ResourceVersion r
    ∧ calicov3.Annotations built = calicov3.Annotations r
    ∧ calicov3.CIDR (calicov3.Spec built) = calicov3.CIDR (calicov3.Spec r)
    ∧ calicov3.BlockSize (calicov3.Spec built)
      = calicov3.BlockSize (calicov3.Spec r)
    ∧ calicov3.NATOutgoing (calicov3.Spec built)
      = calicov3.NATOutgoing (calicov3.Spec r)
    ∧ calicov3.Disabled (calicov3.Spec built)
      = calicov3.Disabled (calicov3.Spec r)
    ∧ calicov3.DisableBGPExport (calicov3.Spec built)
      = calicov3.DisableBGPExport (calicov3.Spec r)
    ∧ calicov3.IPIPMode_ (calicov3.Spec built)
      = getIPIPMode (calicov3.IPIPMode_ (calicov3.Spec r))
    ∧ calicov3.VXLANMode_ (calicov3.Spec built)
      = getVXLANMode (calicov3.VXLANMode_ (calicov3.Spec r))
    ∧ (calicov3.IPIPMode_ (calicov3.Spec built)
       = calicov3.IPIPMode_ (calicov3.Spec r)
       ↔ calicov3.IPIPMode_ (calicov3.Spec r) ∈ modeNames)
    ∧ (calicov3.VXLANMode_ (calicov3.Spec built)
       = calicov3.VXLANMode_ (calicov3.Spec r)
       ↔ calicov3.VXLANMode_ (calicov3.Spec r) ∈ modeNames).
Proof.
  eexists. split; [apply setIPPoolAttributes_poolOf |].
  unfold poolOf. simpl.
  do 10 (split; [reflexivity |]).
  split; [apply getIPIPMode_fixed |].
  rewrite getVXLANMode_getIPIPMode. apply getIPIPMode_fixed.
Qed.

(** X3. Building then reading is the identity up to the identifier and the
    modes: [setResourceAttributes], applied to any data and to the object
    built from [d], writes the attributes of [d] with the two modes
    translated and the identifier set to the name. When both modes of [d]
    are among Always, CrossSubnet and Never, the result is [d] with only the
    identifier changed. *)
Theorem build_then_read (d0 d : ResourceData) :
  setResourceAttributes d0 (setIPPoolAttributes d calicov3.zeroIPPool).1
  = (mkResourceData (metadata_name d)
       (metadata_name d) (metadata_resource_version d) (metadata_annotations d)
       (spec_cidr d) (spec_block_size d)
       (getIPIPMode (spec_ipip_mode d)) (getVXLANMode (spec_vxlan_mode d))
       (spec_nat_outgoing d) (spec_disabled d) (spec_disable_bgp_export d),
     None)
  ∧ (spec_ipip_mode d ∈ modeNames → spec_vxlan_mode d ∈ modeNames →
     setResourceAttributes d0 (setIPPoolAttributes d calicov3.zeroIPPool).1
     = (SetId d (metadata_name d), None)).
Proof.
  rewrite setIPPoolAttributes_poolOf. unfold poolOf. simpl.
  split; [reflexivity |].
  intros Hi Hv. apply getIPIPMode_fixed in Hi, Hv.
  rewrite getVXLANMode_getIPIPMode, Hi, Hv. reflexivity.
Qed.

Lemma build_then_read_witness :
  (spec_ipip_mode fake.poolA ∈ modeNames ∧ spec_vxlan_mode fake.poolA ∈ modeNames)
  ∧ setResourceAttributes fake.newPoolA
      (setIPPoolAttributes fake.poolA calicov3.zeroIPPool).1
    = (SetId fake.poolA "pool-a", None).
Proof.
  assert (Hi : spec_ipip_mode fake.poolA ∈ modeNames) by apply list_elem_of_here.
  assert (Hv : spec_vxlan_mode fake.poolA ∈ modeNames).
  { do 2 apply list_elem_of_further. apply list_elem_of_here. }
  split; [by split |].
  destruct (build_then_read fake.newPoolA fake.poolA) as [_ H].
  exact (H Hi Hv).
Defined.

(** ** Reading *)

Section Reading.

Context {Remote : Type}.
Implicit Types (d : ResourceData) (meta : Meta Remote) (p : Clientset Remote).
Implicit Types (w : World Remote) (e : error) (r : calicov3.IPPool).

Lemma FromErr_Some_ne_nil e : FromErr (Some e) ≠ [].
Proof. discriminate. Qed.

Lemma HasError_FromErr e : HasError (FromErr (Some e)) = true.
Proof. reflexivity. Qed.

(** With the client at hand and the lock held, a read waits. *)
Lemma resourceIPPoolRead_blocked d meta p w :
  GetCalicoConfiguration meta = inl p → locked w = true →
  resourceIPPoolRead d meta w = Blocked w
  ∧ resourceIPPoolExists d meta w = Blocked w.
Proof.
  intros Hp Hheld.
  unfold resourceIPPoolRead, resourceIPPoolExists, bind. rewrite Hp.
  unfold bind. by rewrite getIPPool_blocked.
Qed.

Lemma resourceIPPoolRead_no_client d meta w e :
  GetCalicoConfiguration meta = inr e →
  resourceIPPoolRead d meta w = Returned (d, FromErr (Some e)) w.
Proof.
  intros He. unfold resourceIPPoolRead, resourceIPPoolExists, bind, ret.
  by rewrite He.
Qed.


End Reading.


Section ReadingAgain.

Context {Remote : Type}.
Implicit Types (d : ResourceData) (meta : Meta Remote) (p : Clientset Remote).
Implicit Types (w : World Remote) (e : error) (r : calicov3.IPPool).

(** X5. A successful read forgets the local state: of the resource data it
    is given, only the name counts. Two resource data with the same name,
    read in the same world, end with the same data, in the same world,
    whatever their identifiers and other attributes were. *)
Theorem read_forgets_local_state d1 d2 meta w d' w' :
  metadata_name d1 = metadata_name d2 →
  resourceIPPoolRead d1 meta w = Returned (d', []) w' →
  resourceIPPoolRead d2 meta w = Returned (d', []) w'.
Proof.
  intros Hname Hrun.
  destruct (GetCalicoConfiguration meta) as [p|e] eqn:Hp.
  - destruct (locked w) eqn:Hfree.
    { destruct (resourceIPPoolRead_blocked d1 meta p w Hp Hfree) as [Hb _].
      rewrite Hb in Hrun. discriminate. }
    rewrite (resourceIPPoolRead_run d1 meta p w Hp Hfree) in Hrun.
    rewrite (resourceIPPoolRead_run d2 meta p w Hp Hfree).
    simpl in *. rewrite <- Hname.
    destruct (IPPools_Get p (metadata_name d1) (remote w)).1 as [r1|e1];
      [|discriminate].
    destruct (IPPools_Get p (metadata_name d1) _).1 as [r|e2]; [|discriminate].
    injection Hrun as <- <-. reflexivity.
  - rewrite (resourceIPPoolRead_no_client d1 meta w e Hp) in Hrun. discriminate.
Qed.

(** X6. On a server at rest, reading is idempotent. If fetching the name
    leaves the server as it is and yields a pool that carries that name, a
    read succeeds, and a second read of the data it produced succeeds with
    the same data. *)
Theorem read_twice d meta p w r :
  GetCalicoConfiguration meta = inl p →
  locked w = false →
  IPPools_Get p (metadata_name d) (remote w) = (inl r, remote w) →
  calicov3.Name r = metadata_name d →
  ∃ d1 w1 w2,
    resourceIPPoolRead d meta w = Returned (d1, []) w1
    ∧ resourceIPPoolRead d1 meta w1 = Returned (d1, []) w2
    ∧ remote w2 = remote w ∧ locked w2 = false.
Proof.
  intros Hp Hfree Hget Hname.
  pose (once := [EvLock; EvCall (CallGet (metadata_name d)); EvUnlock]).
  pose (w1 := mkWorld (remote w) false (trace w ++ once ++ once)).
  exists (setResourceAttributes d r).1, w1,
    (mkWorld (remote w) false (trace w1 ++ once ++ once)).
  split; [|split; [|done]].
  - rewrite (resourceIPPoolRead_run d meta p w Hp Hfree). simpl.
    rewrite Hget. simpl. rewrite Hget. simpl. reflexivity.
  - rewrite (resourceIPPoolRead_run _ meta p w1 Hp eq_refl). simpl.
    rewrite Hname, Hget. simpl. rewrite Hget. simpl. by rewrite !Hname.
Qed.

End ReadingAgain.

Lemma read_forgets_local_state_witness :
  metadata_name fake.newPoolA = metadata_name fake.readPoolA
  ∧ resourceIPPoolRead fake.newPoolA fake.meta fake.worldWithA
    = Returned
        ((setResourceAttributes fake.newPoolA
            (fake.withVersion (poolOf fake.poolA) "1")).1, [])
        (mkWorld (remote fake.worldWithA) false
           [EvLock; EvCall (CallGet "pool-a"); EvUnlock;
            EvLock; EvCall (CallGet "pool-a"); EvUnlock])
  ∧ resourceIPPoolRead fake.readPoolA fake.meta fake.worldWithA
    = Returned
        ((setResourceAttributes fake.newPoolA
            (fake.withVersion (poolOf fake.poolA) "1")).1, [])
        (mkWorld (remote fake.worldWithA) false
           [EvLock; EvCall (CallGet "pool-a"); EvUnlock;
            EvLock; EvCall (CallGet "pool-a"); EvUnlock]).
Proof.
  split; [reflexivity |].
  assert (Hrun : resourceIPPoolRead fake.newPoolA fake.meta fake.worldWithA
                 = Returned
                     ((setResourceAttributes fake.newPoolA
                         (fake.withVersion (poolOf fake.poolA) "1")).1, [])
                     (mkWorld (remote fake.worldWithA) false
                        [EvLock; EvCall (CallGet "pool-a"); EvUnlock;
                         EvLock; EvCall (CallGet "pool-a"); EvUnlock]))
    by reflexivity.
  split; [exact Hrun |].
  exact (read_forgets_local_state fake.newPoolA fake.readPoolA _ _ _ _
           eq_refl Hrun).
Defined.

Lemma read_twice_witness :
  ∃ d1 w1 w2,
    resourceIPPoolRead fake.newPoolA fake.meta fake.worldWithA
    = Returned (d1, []) w1
    ∧ resourceIPPoolRead d1 fake.meta w1 = Returned (d1, []) w2
    ∧ remote w2 = remote fake.worldWithA ∧ locked w2 = false.
Proof.
  apply (read_twice fake.newPoolA fake.meta fake.clientset fake.worldWithA
           (fake.withVersion (poolOf fake.poolA) "1")); reflexivity.
Defined.

(** ** What every operation keeps *)

Section Operations.

Context {lib : Library} {Remote : Type}.
Implicit Types (d : ResourceData) (meta : Meta Remote) (p : Clientset Remote).
Implicit Types (w : World Remote) (e : error) (r : calicov3.IPPool).

(** The data a read returns: those it was given, with an error, or those
    written from a fetched object, with none. *)
Lemma resourceIPPoolRead_returned d meta w d' ds w' :
  resourceIPPoolRead d meta w = Returned (d', ds) w' →
  (d' = d ∧ ds ≠ [])
  ∨ (∃ r, d' = (setResourceAttributes d r).1 ∧ ds = [] ∧ locked w' = false).
Proof.
  intros Hrun.
  destruct (GetCalicoConfiguration meta) as [p|e] eqn:Hp.
  - destruct (locked w) eqn:Hfree.
    { destruct (resourceIPPoolRead_blocked d meta p w Hp Hfree) as [Hb _].
      rewrite Hb in Hrun. discriminate. }
    rewrite (resourceIPPoolRead_run d meta p w Hp Hfree) in Hrun. simpl in Hrun.
    destruct (IPPools_Get p (metadata_name d) (remote w)).1 as [r1|e1];
      [destruct (IPPools_Get p (metadata_name d) _).1 as [r|e2] |];
      injection Hrun as <- <- <-; eauto.
  - rewrite (resourceIPPoolRead_no_client d meta w e Hp) in Hrun.
    injection Hrun as <- <- <-. eauto.
Qed.

(** The data a write returns: those it was given, or, on success of Create
    and Update, those with the identifier set to the name. *)
Lemma write_returned d meta w d' ds w' :
  resourceIPPoolCreate d meta w = Returned (d', ds) w'
  ∨ resourceIPPoolUpdate d meta w = Returned (d', ds) w'
  ∨ resourceIPPoolDelete d meta w = Returned (d', ds) w' →
  (d' = d ∨ (d' = SetId d (metadata_name d) ∧ ds = [])) ∧ locked w' = locked w.
Proof.
  intros Hrun.
  destruct (GetCalicoConfiguration meta) as [p|e] eqn:Hp.
  - rewrite (resourceIPPoolCreate_run d meta p w Hp),
      (resourceIPPoolUpdate_run d meta p w Hp),
      (resourceIPPoolDelete_run d meta p w Hp) in Hrun.
    destruct Hrun as [Hrun|[Hrun|Hrun]].
    + destruct (IPPools_Create p (poolOf d) (remote w)).1;
        injection Hrun as <- <- <-; eauto.
    + destruct (IPPools_Update p (poolOf d) (remote w)).1;
        injection Hrun as <- <- <-; eauto.
    + injection Hrun as <- <- <-; eauto.
  - destruct (no_client_run d meta w e Hp) as (Hc & Hu & Hd).
    rewrite Hc, Hu, Hd in Hrun.
    destruct Hrun as [Hrun|[Hrun|Hrun]]; injection Hrun as <- <- <-; eauto.
Qed.

Lemma contexts_inv
    (op : ResourceData → Meta Remote → @M Remote (ResourceData * Diagnostics)) :
  op ∈ contexts resourceIPPool →
  op = resourceIPPoolCreate ∨ op = resourceIPPoolRead
  ∨ op = resourceIPPoolUpdate ∨ op = resourceIPPoolDelete.
Proof.
  unfold contexts, resourceIPPool. simpl. intros Hin.
  repeat (apply elem_of_cons in Hin as [->|Hin]; [eauto |]).
  by apply elem_of_nil in Hin.
Qed.

(** X7. None of the four operations the resource registers, nor the
    existence check, ever releases a lock that is not held (no run ends in
    the runtime's fatal error), and with the lock free each of them returns
    and leaves the lock free: the lock taken for a fetch is released on every
    path, so the next operation is never left waiting. *)
Theorem operations_return d meta w :
  (∀ op, op ∈ contexts resourceIPPool →
     (∀ w', op d meta w ≠ Fatal w')
     ∧ (locked w = false →
        ∃ x w', op d meta w = Returned x w' ∧ locked w' = false))
  ∧ (∀ w', resourceIPPoolExists d meta w ≠ Fatal w')
  ∧ (locked w = false →
     ∃ x w', resourceIPPoolExists d meta w = Returned x w' ∧ locked w' = false).
Proof.
  assert (Hread : (∀ w', resourceIPPoolRead d meta w ≠ Fatal w')
                  ∧ (locked w = false →
                     ∃ x w', resourceIPPoolRead d meta w = Returned x w'
                             ∧ locked w' = false)).
  { destruct (GetCalicoConfiguration meta) as [p|e] eqn:Hp.
    - destruct (locked w) eqn:Hfree.
      + destruct (resourceIPPoolRead_blocked d meta p w Hp Hfree) as (-> & _).
        split; [discriminate | discriminate].
      + rewrite (resourceIPPoolRead_run d meta p w Hp Hfree). simpl.
        destruct (IPPools_Get p (metadata_name d) (remote w)).1;
          [destruct (IPPools_Get p (metadata_name d) _).1 |];
          (split; [discriminate | eauto]).
    - rewrite (resourceIPPoolRead_no_client d meta w e Hp).
      split; [discriminate | eauto]. }
  assert (Hexists : (∀ w', resourceIPPoolExists d meta w ≠ Fatal w')
                    ∧ (locked w = false →
                       ∃ x w', resourceIPPoolExists d meta w = Returned x w'
                               ∧ locked w' = false)).
  { destruct (GetCalicoConfiguration meta) as [p|e] eqn:Hp.
    - destruct (locked w) eqn:Hfree.
      + destruct (resourceIPPoolRead_blocked d meta p w Hp Hfree) as (_ & ->).
        split; [discriminate | discriminate].
      + rewrite (resourceIPPoolExists_run d meta p w Hp Hfree).
        split; [discriminate | eauto].
    - unfold resourceIPPoolExists. rewrite Hp. unfold ret.
      split; [discriminate | eauto]. }
  split; [|exact Hexists].
  intros op Hop.
  destruct (writes_lockFree d meta w)
    as ((xc & wc & Hc & _ & Hlc) & (xu & wu & Hu & _ & Hlu)
        & (xd & wd & Hd & _ & Hld)).
  destruct (contexts_inv op Hop) as [-> | [-> | [-> | -> ]]].
  - rewrite Hc. split; [discriminate |]. intros Hfree. exists xc, wc.
    split; [done | congruence].
  - exact Hread.
  - rewrite Hu. split; [discriminate |]. intros Hfree. exists xu, wu.
    split; [done | congruence].
  - rewrite Hd. split; [discriminate |]. intros Hfree. exists xd, wd.
    split; [done | congruence].
Qed.

(** X8. The identifier and the name. Every operation the resource registers
    keeps the identifier equal to the name attribute when it was so before;
    a Create, Read or Update that reports nothing leaves them equal whatever
    they were before; and Create, Update and Delete never change the name
    attribute. *)
Theorem identifier_is_name d meta w :
  (∀ op d' ds w', op ∈ contexts resourceIPPool →
     op d meta w = Returned (d', ds) w' →
     Id d = metadata_name d → Id d' = metadata_name d')
  ∧ (∀ d' w',
       resourceIPPoolCreate d meta w = Returned (d', []) w'
       ∨ resourceIPPoolRead d meta w = Returned (d', []) w'
       ∨ resourceIPPoolUpdate d meta w = Returned (d', []) w' →
       Id d' = metadata_name d')
  ∧ (∀ d' ds w',
       resourceIPPoolCreate d meta w = Returned (d', ds) w'
       ∨ resourceIPPoolUpdate d meta w = Returned (d', ds) w'
       ∨ resourceIPPoolDelete d meta w = Returned (d', ds) w' →
       metadata_name d' = metadata_name d).
Proof.
  split; [|split].
  - intros op d' ds w' Hop Hrun Hid.
    destruct (contexts_inv op Hop) as [-> | [-> | [-> | -> ]]].
    + destruct (write_returned d meta w d' ds w') as [[->|[-> _]] _]; auto.
    + destruct (resourceIPPoolRead_returned d meta w d' ds w' Hrun)
        as [[-> _]|(r & -> & _)]; auto.
    + destruct (write_returned d meta w d' ds w') as [[->|[-> _]] _]; auto.
    + destruct (write_returned d meta w d' ds w') as [[->|[-> _]] _]; auto.
  - intros d' w' [Hrun|[Hrun|Hrun]].
    + destruct (GetCalicoConfiguration meta) as [p|e] eqn:Hp.
      * rewrite (resourceIPPoolCreate_run d meta p w Hp) in Hrun.
        destruct (IPPools_Create p (poolOf d) (remote w)).1;
          [injection Hrun as <- _; reflexivity | discriminate].
      * destruct (no_client_run d meta w e Hp) as (Hc & _).
        rewrite Hc in Hrun. discriminate.
    + destruct (resourceIPPoolRead_returned d meta w d' [] w' Hrun)
        as [[_ Hds]|(r & -> & _)]; [done | reflexivity].
    + destruct (GetCalicoConfiguration meta) as [p|e] eqn:Hp.
      * rewrite (resourceIPPoolUpdate_run d meta p w Hp) in Hrun.
        destruct (IPPools_Update p (poolOf d) (remote w)).1;
          [injection Hrun as <- _; reflexivity | discriminate].
      * destruct (no_client_run d meta w e Hp) as (_ & Hu & _).
        rewrite Hu in Hrun. discriminate.
  - intros d' ds w' Hrun.
    destruct (write_returned d meta w d' ds w' Hrun) as [[->|[-> _]] _];
      reflexivity.
Qed.

(** X9. A write does not refresh what the next write sends. After a Create or
    an Update that succeeded, the object an Update builds from the resulting
    data is the object the first write sent, resource version included, and
    the Update issues exactly that call again: without a read in between,
    the second write carries the version the first one started from. *)
Theorem writes_resubmit d meta p w d1 w1 :
  GetCalicoConfiguration meta = inl p →
  resourceIPPoolCreate d meta w = Returned (d1, []) w1
  ∨ resourceIPPoolUpdate d meta w = Returned (d1, []) w1 →
  (setIPPoolAttributes d1 calicov3.zeroIPPool).1
  = (setIPPoolAttributes d calicov3.zeroIPPool).1
  ∧ calicov3.ResourceVersion (setIPPoolAttributes d1 calicov3.zeroIPPool).1
    = metadata_resource_version d
  ∧ ∃ x w2,
      resourceIPPoolUpdate d1 meta w1 = Returned x w2
      ∧ trace w2
        = trace w1
          ++ [EvCall (CallUpdate (setIPPoolAttributes d calicov3.zeroIPPool).1)].
Proof.
  intros Hp Hrun.
  assert (Hd1 : d1 = SetId d (metadata_name d)).
  { destruct Hrun as [Hrun|Hrun].
    - rewrite (resourceIPPoolCreate_run d meta p w Hp) in Hrun.
      destruct (IPPools_Create p (poolOf d) (remote w)).1;
        [by injection Hrun as <- _ | discriminate].
    - rewrite (resourceIPPoolUpdate_run d meta p w Hp) in Hrun.
      destruct (IPPools_Update p (poolOf d) (remote w)).1;
        [by injection Hrun as <- _ | discriminate]. }
  subst d1. rewrite !setIPPoolAttributes_poolOf. simpl.
  split; [reflexivity |]. split; [reflexivity |].
  rewrite (resourceIPPoolUpdate_run _ meta p w1 Hp). eauto.
Qed.

End Operations.

Lemma operations_return_witness :
  (∃ x w', resourceIPPoolRead fake.poolA fake.meta fake.worldWithA = Returned x w'
           ∧ locked w' = false)
  ∧ (∃ x w', resourceIPPoolExists fake.poolA fake.meta fake.emptyWorld
             = Returned x w' ∧ locked w' = false).
Proof.
  destruct (operations_return (lib := fake.library)
              fake.poolA fake.meta fake.worldWithA) as [Hops _].
  destruct (operations_return (lib := fake.library)
              fake.poolA fake.meta fake.emptyWorld) as (_ & _ & Hexists).
  split; [|exact (Hexists eq_refl)].
  destruct (Hops resourceIPPoolRead) as [_ Hret].
  { apply list_elem_of_further, list_elem_of_here. }
  exact (Hret eq_refl).
Defined.

Lemma identifier_is_name_witness :
  Id fake.newPoolA ≠ metadata_name fake.newPoolA
  ∧ resourceIPPoolCreate fake.newPoolA fake.meta fake.emptyWorld
    = Returned (SetId fake.newPoolA "pool-a", [])
        (mkWorld {[ "pool-a" := fake.withVersion (poolOf fake.newPoolA) "1" ]}
           false [EvCall (CallCreate (poolOf fake.newPoolA))])
  ∧ Id (SetId fake.newPoolA "pool-a") = metadata_name (SetId fake.newPoolA "pool-a")
  ∧ (Id fake.poolA = metadata_name fake.poolA
     ∧ Id fake.poolA = metadata_name fake.poolA)
  ∧ metadata_name fake.poolA = metadata_name fake.poolA.
Proof.
  destruct (identifier_is_name (lib := fake.library)
              fake.newPoolA fake.meta fake.emptyWorld) as (_ & Hset & _).
  destruct (identifier_is_name (lib := fake.library)
              fake.poolA fake.meta fake.emptyWorld) as (Hkeep & _ & Hname).
  assert (Hcreate : resourceIPPoolCreate fake.newPoolA fake.meta fake.emptyWorld
                    = Returned (SetId fake.newPoolA "pool-a", [])
                        (mkWorld
                           {[ "pool-a" := fake.withVersion (poolOf fake.newPoolA) "1" ]}
                           false [EvCall (CallCreate (poolOf fake.newPoolA))]))
    by reflexivity.
  assert (Hdelete : resourceIPPoolDelete fake.poolA fake.meta fake.emptyWorld
                    = Returned (fake.poolA, FromErr (Some (fake.notFound "pool-a")))
                        (mkWorld ∅ false [EvCall (CallDelete "pool-a")]))
    by reflexivity.
  split; [discriminate |]. split; [exact Hcreate |].
  split; [eapply Hset; left; exact Hcreate |].
  split.
  - split; [reflexivity |].
    eapply (Hkeep resourceIPPoolDelete); [|exact Hdelete | reflexivity].
    do 3 apply list_elem_of_further. apply list_elem_of_here.
  - eapply Hname. right. right. exact Hdelete.
Defined.

Lemma writes_resubmit_witness :
  resourceIPPoolUpdate fake.readPoolA fake.meta fake.worldWithA
  = Returned (SetId fake.readPoolA "pool-a", [])
      (mkWorld {[ "pool-a" := fake.withVersion (poolOf fake.readPoolA) "11" ]}
         false [EvCall (CallUpdate (poolOf fake.readPoolA))])
  ∧ calicov3.ResourceVersion
      (setIPPoolAttributes (SetId fake.readPoolA "pool-a") calicov3.zeroIPPool).1
    = "1"
  ∧ ∃ x w2,
      resourceIPPoolUpdate (SetId fake.readPoolA "pool-a") fake.meta
        (mkWorld {[ "pool-a" := fake.withVersion (poolOf fake.readPoolA) "11" ]}
           false [EvCall (CallUpdate (poolOf fake.readPoolA))])
      = Returned x w2
      ∧ trace w2
        = [EvCall (CallUpdate (poolOf fake.readPoolA))]
          ++ [EvCall (CallUpdate
                        (setIPPoolAttributes fake.readPoolA calicov3.zeroIPPool).1)].
Proof.
  assert (Hrun : resourceIPPoolUpdate fake.readPoolA fake.meta fake.worldWithA
                 = Returned (SetId fake.readPoolA "pool-a", [])
                     (mkWorld
                        {[ "pool-a" := fake.withVersion (poolOf fake.readPoolA) "11" ]}
                        false [EvCall (CallUpdate (poolOf fake.readPoolA))]))
    by reflexivity.
  split; [exact Hrun |].
  destruct (writes_resubmit fake.readPoolA fake.meta fake.clientset
              fake.worldWithA (SetId fake.readPoolA "pool-a")
              (mkWorld
                 {[ "pool-a" := fake.withVersion (poolOf fake.readPoolA) "11" ]}
                 false [EvCall (CallUpdate (poolOf fake.readPoolA))])
              eq_refl (or_intror Hrun))
    as (_ & Hver & Hagain).
  split; [exact Hver | exact Hagain].
Defined.

(** ** Annotations: the order of the keys, and the untyped map *)

Section AnnotationOrder.

Context {lib : Library}.

Lemma flat_map_Permutation {A B} (f : A → list B) (l l' : list A) :
  l ≡ₚ l' → flat_map f l ≡ₚ flat_map f l'.
Proof.
  induction 1 as [|x l l' _ IH|x y l|l l' l'' _ IH1 _ IH2]; simpl.
  - done.
  - by rewrite IH.
  - rewrite !app_assoc. f_equiv. apply Permutation_app_comm.
  - by rewrite IH1.
Qed.

(** X10. The order in which the keys of the annotations are visited, which Go
    leaves open, decides nothing but the order of the errors: for two
    enumerations of the same entries [validateAnnotations] returns the same
    errors up to their order, and for entries listed one group after the
    other it returns the errors of the first group followed by those of the
    second. *)
Theorem validateAnnotations_any_order (m m' : rawMap) (key : string) :
  (m ≡ₚ m' →
   ∃ es es',
     validateAnnotations (VMap m) key = Some ([], es)
     ∧ validateAnnotations (VMap m') key = Some ([], es')
     ∧ es ≡ₚ es')
  ∧ ∃ es es',
      validateAnnotations (VMap m) key = Some ([], es)
      ∧ validateAnnotations (VMap m') key = Some ([], es')
      ∧ validateAnnotations (VMap (m ++ m')) key = Some ([], es ++ es').
Proof.
  split.
  - intros Hperm. eexists _, _. simpl. rewrite !rangeAnnotations_app. simpl.
    split; [reflexivity |]. split; [reflexivity |].
    by apply flat_map_Permutation.
  - eexists _, _. simpl. rewrite !rangeAnnotations_app. simpl.
    split; [reflexivity |]. split; [reflexivity |].
    by rewrite flat_map_app.
Qed.

End AnnotationOrder.

Lemma validateAnnotations_any_order_witness :
  [(EmptyString, VString "x"); ("Owner", VString "net")]
  ≡ₚ [("Owner", VString "net"); (EmptyString, VString "x")]
  ∧ ∃ es es',
      validateAnnotations (lib := fake.library)
        (VMap [(EmptyString, VString "x"); ("Owner", VString "net")])
        "metadata.0.annotations" = Some ([], es)
      ∧ validateAnnotations (lib := fake.library)
          (VMap [("Owner", VString "net"); (EmptyString, VString "x")])
          "metadata.0.annotations" = Some ([], es')
      ∧ es ≡ₚ es'.
Proof.
  assert (Hperm : [(EmptyString, VString "x"); ("Owner", VString "net")]
                  ≡ₚ [("Owner", VString "net"); (EmptyString, VString "x")])
    by apply perm_swap.
  split; [exact Hperm |].
  destruct (validateAnnotations_any_order (lib := fake.library)
              [(EmptyString, VString "x"); ("Owner", VString "net")]
              [("Owner", VString "net"); (EmptyString, VString "x")]
              "metadata.0.annotations") as [H _].
  exact (H Hperm).
Defined.

Lemma expandStringMapRange_strings (l : list (string * string))
    (result : gmap string string) :
  expandStringMapRange (map (λ kv, (kv.1, VString kv.2)) l) result
  = Some (list_to_map (reverse l) ∪ result).
Proof.
  revert result. induction l as [|[k s] l IH]; intros result; simpl.
  - by rewrite (left_id_L ∅ (∪)).
  - rewrite IH, reverse_cons, list_to_map_app. simpl.
    rewrite insert_empty, <- (assoc_L (∪)).
    by rewrite <- insert_union_singleton_l.
Qed.

Lemma expandStringMapRange_None (m : rawMap) (result : gmap string string) :
  expandStringMapRange m result = None
  ↔ ∃ k v, (k, v) ∈ m ∧ ∀ s, v ≠ VString s.
Proof.
  revert result. induction m as [|[k v] m IH]; intros result; simpl.
  - split; [discriminate |]. intros (k & v & Hin & _). by apply elem_of_nil in Hin.
  - destruct v as [s| | | |];
      try (split; [intros _; eexists _, _;
                   split; [apply list_elem_of_here | discriminate] | done]).
    rewrite IH. split.
    + intros (k' & v' & Hin & Hv). exists k', v'.
      split; [by apply list_elem_of_further | done].
    + intros (k' & v' & Hin & Hv). exists k', v'. split; [|done].
      apply elem_of_cons in Hin as [Heq|Hin]; [|done].
      injection Heq as -> ->. by destruct (Hv s).
Qed.

(** X11. [expandStringMap] on the untyped map of the annotations. It panics
    exactly when some value is not a string. On a map of strings it returns
    the map that holds every entry (a later entry of the enumeration would
    win over an earlier one with the same key; a Go map has each key once,
    and then the result is the map of the entries, whatever their order),
    the very map the typed [expandStringMap] returns for it. *)
Theorem expandStringMapUntyped_spec (m : rawMap) :
  (expandStringMapUntyped m = None ↔ ∃ k v, (k, v) ∈ m ∧ ∀ s, v ≠ VString s)
  ∧ (∀ l : list (string * string),
       m = map (λ kv, (kv.1, VString kv.2)) l →
       expandStringMapUntyped m = Some (list_to_map (reverse l))
       ∧ (NoDup l.*1 →
          expandStringMapUntyped m = Some (list_to_map l)
          ∧ expandStringMap (list_to_map l) = list_to_map l
          ∧ ∀ k s, (k, s) ∈ l →
              (list_to_map l : gmap string string) !! k = Some s)).
Proof.
  split; [apply expandStringMapRange_None |].
  intros l ->. unfold expandStringMapUntyped.
  rewrite expandStringMapRange_strings, (right_id_L ∅ (∪)).
  split; [reflexivity |]. intros Hdup.
  split; [|split].
  - f_equal. apply list_to_map_proper; [|apply reverse_Permutation].
    by rewrite reverse_Permutation.
  - apply expandStringMap_id.
  - intros k s Hin. by apply elem_of_list_to_map_1.
Qed.

Lemma expandStringMapUntyped_spec_witness :
  expandStringMapUntyped [("owner", VString "net"); ("tier", VString "edge")]
  = Some (list_to_map [("owner", "net"); ("tier", "edge")])
  ∧ (list_to_map [("owner", "net"); ("tier", "edge")] : gmap string string)
      !! "tier" = Some "edge"
  ∧ expandStringMapUntyped [("owner", VString "net"); ("tier", VInt 3)] = None.
Proof.
  destruct (expandStringMapUntyped_spec
              [("owner", VString "net"); ("tier", VString "edge")])
    as [_ Hstrings].
  destruct (Hstrings [("owner", "net"); ("tier", "edge")] eq_refl) as [_ Hmap].
  destruct Hmap as (Hres & _ & Hlook).
  { simpl. apply NoDup_cons. split.
    - intros Hin. apply list_elem_of_singleton in Hin. discriminate.
    - apply NoDup_singleton. }
  split; [exact Hres |].
  split; [apply Hlook; apply list_elem_of_further, list_elem_of_here |].
  destruct (expandStringMapUntyped_spec
              [("owner", VString "net"); ("tier", VInt 3)]) as [[_ Hnone] _].
  apply Hnone. exists "tier", (VInt 3).
  split; [apply list_elem_of_further, list_elem_of_here | discriminate].
Defined.

(** ** What the schema makes the SDK reject *)

Section Rejections.

Context {lib : Library}.

Lemma Validate_metadata_elem (c : ResourceConfig) ds k s ds0 x :
  Validate c = Some ds →
  (k, s) ∈ metadataSchema →
  validateAttribute ("metadata.0." +:+ k) s c = Some ds0 →
  x ∈ ds0 → x ∈ ds.
Proof.
  unfold Validate, resourceCalicoIPPoolSchemaV3.
  cbn [validateBlocks Elem]. intros Hrun Hk Hone Hx.
  destruct (validateObject ("metadata" +:+ ".0") metadataSchema c) as [d1|] eqn:H1;
    [|discriminate].
  destruct (validateObject ("spec" +:+ ".0") _ c) as [d2|]; [|discriminate].
  injection Hrun as <-. apply elem_of_app. left.
  by apply (validateObject_elem ("metadata" +:+ ".0") metadataSchema c d1 k s ds0 x).
Qed.

(** A mode attribute written with a string outside the three names fails
    its own validation, by the conflict or by [StringInSlice]. *)
Lemma mode_attribute_error (c : ResourceConfig) (k other v : string) (s : Schema) :
  Required s = false → Optional s = true →
  ConflictsWith s = [other] →
  ValidateFunc s = Some (StringInSlice modeNames false) →
  v ∉ modeNames →
  c !! k = Some (VString v) →
  ∃ x, validateAttribute k s c = Some [x] ∧ severity x = SeverityError.
Proof.
  intros Hreq Hopt Hconf Hvf Hout Hraw.
  unfold validateAttribute. rewrite Hraw, Hreq, Hopt. simpl.
  unfold validateConflictingAttributes. rewrite Hconf. simpl.
  destruct (StringInSlice_modes v k) as [_ Hbad].
  destruct (Hbad Hout) as [e He].
  assert (Hown : ∃ x, validateType k (VString v) s = Some [x]
                      ∧ severity x = SeverityError).
  { unfold validateType. rewrite Hvf, He. simpl. eauto. }
  destruct (c !! other) as [[| | | |]|]; eauto.
Qed.

(** X12. A configuration that writes [ipip_mode] or [vxlan_mode] with a
    string other than Always, CrossSubnet and Never is rejected by the SDK's
    validation of the configuration, through the validation function the
    schema attaches to the attribute: whenever the validation returns it
    reports an error, and it returns when the annotations are absent,
    unknown or a map. *)
Theorem invalid_mode_rejected (c : ResourceConfig) (v : string) :
  v ∉ modeNames →
  c !! "spec.0.ipip_mode" = Some (VString v)
  ∨ c !! "spec.0.vxlan_mode" = Some (VString v) →
  (∀ ds, Validate c = Some ds → HasError ds = true)
  ∧ ((∀ a, c !! "metadata.0.annotations" = Some a →
        a = VUnknown ∨ ∃ m, a = VMap m) →
     ∃ ds, Validate c = Some ds ∧ HasError ds = true).
Proof.
  intros Hout Hset.
  assert (Hall : ∀ ds, Validate c = Some ds → HasError ds = true).
  { intros ds Hrun. destruct Hset as [Hraw|Hraw].
    - destruct (mode_attribute_error c "spec.0.ipip_mode" "spec.0.vxlan_mode" v
                  (mkSchema TypeString true false false false
                     (defaultAttributes !! "ipip_mode") 0
                     (Some (StringInSlice modeNames false))
                     ["spec.0.vxlan_mode"] ElemNone))
        as (x & Hx & Hsev); try done.
      apply (HasError_elem x ds); [|done].
      eapply (Validate_spec_elem c ds "ipip_mode"); [exact Hrun | | exact Hx |].
      + unfold specSchema.
        apply list_elem_of_further, list_elem_of_further, list_elem_of_here.
      + apply list_elem_of_here.
    - destruct (mode_attribute_error c "spec.0.vxlan_mode" "spec.0.ipip_mode" v
                  (mkSchema TypeString true false false false
                     (defaultAttributes !! "vxlan_mode") 0
                     (Some (StringInSlice modeNames false))
                     ["spec.0.ipip_mode"] ElemNone))
        as (x & Hx & Hsev); try done.
      apply (HasError_elem x ds); [|done].
      eapply (Validate_spec_elem c ds "vxlan_mode"); [exact Hrun | | exact Hx |].
      + unfold specSchema. do 3 apply list_elem_of_further.
        apply list_elem_of_here.
      + apply list_elem_of_here. }
  split; [exact Hall |].
  intros Hann. destruct (Validate_is_Some c Hann) as [ds Hrun]. eauto.
Qed.

(** X13. The schema makes [cidr] required and [resource_version] computed
    only: a configuration that does not write [spec.0.cidr], or that writes
    [metadata.0.resource_version], is rejected by the SDK's validation
    whenever it returns, and it returns when the annotations are absent,
    unknown or a map. *)
Theorem required_and_computed (c : ResourceConfig) :
  c !! "spec.0.cidr" = None
  ∨ (∃ raw, c !! "metadata.0.resource_version" = Some raw) →
  (∀ ds, Validate c = Some ds → HasError ds = true)
  ∧ ((∀ a, c !! "metadata.0.annotations" = Some a →
        a = VUnknown ∨ ∃ m, a = VMap m) →
     ∃ ds, Validate c = Some ds ∧ HasError ds = true).
Proof.
  intros Hbad.
  assert (Hall : ∀ ds, Validate c = Some ds → HasError ds = true).
  { intros ds Hrun. destruct Hbad as [Hnone|[raw Hraw]].
    - apply (HasError_elem
               (errorDiagnostic "Missing required argument" "spec.0.cidr") ds);
        [|done].
      assert (Hattr : validateAttribute "spec.0.cidr"
                        (mkSchema TypeString false true true false None 0 None []
                           ElemNone) c
                      = Some [errorDiagnostic "Missing required argument"
                                "spec.0.cidr"]).
      { unfold validateAttribute. rewrite Hnone. reflexivity. }
      eapply (Validate_spec_elem c ds "cidr"); [exact Hrun | | exact Hattr |].
      + unfold specSchema. apply list_elem_of_here.
      + apply list_elem_of_here.
    - apply (HasError_elem
               (errorDiagnostic "Value for unconfigurable attribute"
                  "metadata.0.resource_version") ds); [|done].
      assert (Hattr : validateAttribute "metadata.0.resource_version"
                        (mkSchema TypeString false false false true None 0 None []
                           ElemNone) c
                      = Some [errorDiagnostic "Value for unconfigurable attribute"
                                "metadata.0.resource_version"]).
      { unfold validateAttribute. rewrite Hraw. reflexivity. }
      eapply (Validate_metadata_elem c ds "resource_version");
        [exact Hrun | | exact Hattr |].
      + unfold metadataSchema. apply list_elem_of_further, list_elem_of_here.
      + apply list_elem_of_here. }
  split; [exact Hall |].
  intros Hann. destruct (Validate_is_Some c Hann) as [ds Hrun]. eauto.
Qed.


End Rejections.

Lemma invalid_mode_rejected_witness :
  ("always" ∉ modeNames)
  ∧ fake.lowerCaseMode !! "spec.0.ipip_mode" = Some (VString "always")
  ∧ ∃ ds, Validate (lib := fake.library) fake.lowerCaseMode = Some ds
          ∧ HasError ds = true.
Proof.
  assert (Hout : "always" ∉ modeNames).
  { intros Hin. unfold modeNames in Hin.
    repeat (apply elem_of_cons in Hin as [Heq|Hin]; [discriminate |]).
    by apply elem_of_nil in Hin. }
  split; [exact Hout |]. split; [reflexivity |].
  destruct (invalid_mode_rejected (lib := fake.library) fake.lowerCaseMode
              "always" Hout (or_introl eq_refl)) as [_ H].
  apply H. intros a Ha. vm_compute in Ha. discriminate Ha.
Defined.

Lemma required_and_computed_witness :
  fake.noCidr !! "spec.0.cidr" = None
  ∧ ∃ ds, Validate (lib := fake.library) fake.noCidr = Some ds
          ∧ HasError ds = true.
Proof.
  split; [reflexivity |].
  destruct (required_and_computed (lib := fake.library) fake.noCidr
              (or_introl eq_refl)) as [_ H].
  apply H. intros a Ha. vm_compute in Ha. discriminate Ha.
Defined.


(** ** Create, then read *)

Section CreateThenRead.

Context {Remote : Type}.
Implicit Types (d : ResourceData) (meta : Meta Remote) (p : Clientset Remote).
Implicit Types (w : World Remote) (e : error) (r : calicov3.IPPool).

(** X15. A Create followed by a Read. If the remote Create succeeds and the
    server then serves, for the configured name, a pool that carries this
    name and the specification that was sent, the read succeeds and the
    resource data hold the name, CIDR, block size and flags that were
    submitted, the two modes in translated form, and the resource version of
    the pool that was served. Three remote calls are issued in all: the
    Create and two Gets. *)
Theorem create_then_read d meta p w r :
  GetCalicoConfiguration meta = inl p →
  locked w = false →
  (∃ reply,
     (IPPools_Create p (setIPPoolAttributes d calicov3.zeroIPPool).1 (remote w)).1
     = inl reply) →
  IPPools_Get p (metadata_name d)
    (IPPools_Create p (setIPPoolAttributes d calicov3.zeroIPPool).1 (remote w)).2
  = (inl r,
     (IPPools_Create p (setIPPoolAttributes d calicov3.zeroIPPool).1 (remote w)).2) →
  calicov3.Name r = metadata_name d →
  calicov3.Spec r = calicov3.Spec (setIPPoolAttributes d calicov3.zeroIPPool).1 →
  ∃ d1 w1 d2 w2,
    resourceIPPoolCreate d meta w = Returned (d1, []) w1
    ∧ resourceIPPoolRead d1 meta w1 = Returned (d2, []) w2
    ∧ calls (emitted w w2)
      = [CallCreate (setIPPoolAttributes d calicov3.zeroIPPool).1;
         CallGet (metadata_name d); CallGet (metadata_name d)]
    ∧ Id d2 = metadata_name d
    ∧ metadata_name d2 = metadata_name d
    ∧ metadata_resource_version d2 = calicov3.ResourceVersion r
    ∧ spec_cidr d2 = spec_cidr d
    ∧ spec_block_size d2 = spec_block_size d
    ∧ spec_ipip_mode d2 = getIPIPMode (spec_ipip_mode d)
    ∧ spec_vxlan_mode d2 = getVXLANMode (spec_vxlan_mode d)
    ∧ spec_nat_outgoing d2 = spec_nat_outgoing d
    ∧ spec_disabled d2 = spec_disabled d
    ∧ spec_disable_bgp_export d2 = spec_disable_bgp_export d.
Proof.
  rewrite setIPPoolAttributes_poolOf. simpl.
  intros Hp Hfree [reply Hcreate] Hget Hname Hspec.
  pose (rem1 := (IPPools_Create p (poolOf d) (remote w)).2).
  pose (w1 := mkWorld rem1 (locked w) (trace w ++ [EvCall (CallCreate (poolOf d))])).
  pose (once := [EvLock; EvCall (CallGet (metadata_name d)); EvUnlock]).
  exists (SetId d (metadata_name d)), w1, (setResourceAttributes d r).1,
    (mkWorld rem1 false (trace w1 ++ once ++ once)).
  split; [|split].
  - rewrite (resourceIPPoolCreate_run d meta p w Hp), Hcreate. reflexivity.
  - rewrite (resourceIPPoolRead_run _ meta p w1 Hp Hfree). simpl.
    fold rem1. fold rem1 in Hget. rewrite Hget. simpl. rewrite Hget. reflexivity.
  - split.
    { rewrite (emitted_app w _
                 ([EvCall (CallCreate (poolOf d))] ++ once ++ once)).
      - reflexivity.
      - simpl. by rewrite <- app_assoc. }
    simpl. rewrite Hspec, Hname. simpl. repeat split.
Qed.

End CreateThenRead.

Lemma create_then_read_witness :
  ∃ d1 w1 d2 w2,
    resourceIPPoolCreate fake.newPoolA fake.meta fake.emptyWorld
    = Returned (d1, []) w1
    ∧ resourceIPPoolRead d1 fake.meta w1 = Returned (d2, []) w2
    ∧ calls (emitted fake.emptyWorld w2)
      = [CallCreate (setIPPoolAttributes fake.newPoolA calicov3.zeroIPPool).1;
         CallGet "pool-a"; CallGet "pool-a"]
    ∧ Id d2 = "pool-a"
    ∧ metadata_resource_version d2 = "1"
    ∧ spec_cidr d2 = "10.144.1.0/24"
    ∧ spec_block_size d2 = 27%Z.
Proof.
  destruct (create_then_read fake.newPoolA fake.meta fake.clientset
              fake.emptyWorld (fake.withVersion (poolOf fake.newPoolA) "1"))
    as (d1 & w1 & d2 & w2 & Hc & Hr & Hcalls & Hid & _ & Hver & Hcidr & Hsize & _);
    try reflexivity.
  { eexists. reflexivity. }
  exists d1, w1, d2, w2. repeat split; assumption.
Defined.
